(** * SmartAgentDeploy: the decision-and-simulation engine of [src/ai/agent.py]

    A shallow embedding of [AIAgent]: sequence windowing ([preprocess_data]),
    signal thresholding ([predict]), the live position step
    ([execute_strategy]), the backtest replay ([evaluate]) and the agent
    record ([to_dict], [from_dict], [save_model], [load_model], [train]).

    Python floats are kept behind the interface [Number], read at IEEE
    binary64 ([PrimFloat.float], what CPython and NumPy compute with). The
    network answers in single precision: the scalar [prediction[-1][0]] is a
    [numpy.float32], and NumPy (version 2, NEP 50) compares and scales it in
    single precision, a Python float or int that meets it being converted to
    [float32] first. That arithmetic is kept behind the interface [Float32],
    read at IEEE binary32 ([SpecFloat] at precision 24). *)

From Stdlib Require Import ZArith QArith.
From Stdlib Require PrimFloat Uint63 Floats.
From stdpp Require Import base option list strings pretty gmap sorting.
Close Scope Q_scope.
Set Warnings "-register-all".

(** ** Numbers *)

(** The arithmetic the engine needs from a Python [float] (and from the
    [int]s that are mixed into float expressions). *)
Class Number (F : Type) : Type := {
  of_int : Z → F;          (* an [int] used where a float is expected *)
  literal : Q → F;         (* a decimal literal such as [0.5] or [10000.0] *)
  fadd : F → F → F;
  fsub : F → F → F;
  fmul : F → F → F;
  fdiv : F → F → F;
  fabs : F → F;
  fgt : F → F → bool;      (* [a > b] *)
  flt : F → F → bool       (* [a < b] *)
}.

(** The arithmetic on a [numpy.float32] scalar or array. *)
Class Float32 (F : Type) : Type := {
  float32 : Type;
  weak : F → float32;      (* a Python [float] or [int] operand, cast to [float32] *)
  widen : float32 → F;     (* [float(x)] *)
  ssub : float32 → float32 → float32;
  smul : float32 → float32 → float32;
  sabs : float32 → float32;
  sgt : float32 → float32 → bool;      (* [a > b] *)
  slt : float32 → float32 → bool       (* [a < b] *)
}.

(** binary64: integers below 2^63 in magnitude convert through [of_uint63];
    a decimal literal [n/d] with [n], [d] below 2^53 is the correctly rounded
    quotient, which is the double the Python parser produces. *)
Definition float_of_int (z : Z) : PrimFloat.float :=
  match z with
  | Z0 => PrimFloat.zero
  | Zpos _ => PrimFloat.of_uint63 (Uint63.of_Z z)
  | Zneg p => PrimFloat.opp (PrimFloat.of_uint63 (Uint63.of_Z (Zpos p)))
  end.

Definition float_of_Q (q : Q) : PrimFloat.float :=
  PrimFloat.div (float_of_int (Qnum q)) (float_of_int (Zpos (Qden q))).

#[export] Instance float64 : Number PrimFloat.float := {|
  of_int := float_of_int;
  literal := float_of_Q;
  fadd := PrimFloat.add;
  fsub := PrimFloat.sub;
  fmul := PrimFloat.mul;
  fdiv := PrimFloat.div;
  fabs := PrimFloat.abs;
  fgt := λ a b, PrimFloat.ltb b a;
  flt := PrimFloat.ltb
|}.

(** binary32: precision 24, infinities at exponent 128. A double is cast by
    rounding its mantissa to nearest, ties to even. *)
Definition binary32_of (x : PrimFloat.float) : SpecFloat.spec_float :=
  match FloatOps.Prim2SF x with
  | SpecFloat.S754_finite s m e => SpecFloat.binary_round 24 128 s m e
  | y => y
  end.

#[export] Instance binary32 : Float32 PrimFloat.float := {|
  float32 := SpecFloat.spec_float;
  weak := binary32_of;
  widen := FloatOps.SF2Prim;
  ssub := SpecFloat.SFsub 24 128;
  smul := SpecFloat.SFmul 24 128;
  sabs := SpecFloat.SFabs;
  sgt := λ a b, SpecFloat.SFltb b a;
  slt := SpecFloat.SFltb
|}.

(** The rational a finite binary32 value stands for. *)
Definition float32_value (x : SpecFloat.spec_float) : option Q :=
  match x with
  | SpecFloat.S754_zero _ => Some 0%Q
  | SpecFloat.S754_finite s m e =>
      let v := match e with
               | Zneg k => (Zpos m # 2 ^ k)%Q
               | _ => inject_Z (Zpos m * 2 ^ e)
               end in
      Some (if s then (- v)%Q else v)
  | _ => None
  end.

(** ** Exceptions *)

Inductive PyError : Type :=
| ValueError (msg : string)
| IndexError (msg : string).

Inductive Result (A : Type) : Type :=
| Return (a : A)
| Raise (e : PyError).
Arguments Return {A} a.
Arguments Raise {A} e.

#[export] Instance Result_ret : MRet Result := @Return.
#[export] Instance Result_bind : MBind Result :=
  λ A B f m, match m with Return a => f a | Raise e => Raise e end.

(** What scikit-learn's input validation raises when [MinMaxScaler] is given
    the five feature columns of a table without rows. *)
Definition no_samples : PyError :=
  ValueError "Found array with 0 sample(s) (shape=(0, 5)) while a minimum of 1 is required by MinMaxScaler.".

(** [l[i]] with Python's negative indices ([iloc[-1]], [prediction[-1]]). *)
Definition py_index {A : Type} (l : list A) (i : Z) : Result A :=
  let n := Z.of_nat (length l) in
  let j := if (i <? 0)%Z then (n + i)%Z else i in
  if (j <? 0)%Z then Raise (IndexError "index out of bounds")
  else match l !! Z.to_nat j with
       | Some x => Return x
       | None => Raise (IndexError "index out of bounds")
       end.

(** [m[i, j]] on a two-dimensional array. *)
Definition py_index2 {A : Type} (m : list (list A)) (i j : Z) : Result A :=
  row ← py_index m i; py_index row j.

(** ** Paths *)

Definition is_absolute (path : string) : bool :=
  match path with
  | String c _ => bool_decide (String c "" = "/")
  | "" => false
  end.

Fixpoint ends_with_separator (path : string) : bool :=
  match path with
  | "" => false
  | String c "" => bool_decide (String c "" = "/")
  | String _ rest => ends_with_separator rest
  end.

(** [os.path.join(a, b)] on POSIX: an absolute [b] replaces [a]; otherwise
    the two are concatenated, with a separator unless [a] is empty or ends
    with one. *)
Definition join (a b : string) : string :=
  if is_absolute b then b
  else if decide (a = "") then b
  else if ends_with_separator a then a +:+ b
  else a +:+ "/" +:+ b.

(** ** Data model *)

Inductive Signal : Type := buy | sell | hold.

#[export] Instance Signal_eq_dec : EqDecision Signal.
Proof. solve_decision. Defined.

(** JSON-shaped values of the free-form [metadata] dictionary. *)
Inductive Json (F : Type) : Type :=
| JNull
| JBool (b : bool)
| JNum (x : F)
| JStr (s : string)
| JList (items : list (Json F))
| JObject (fields : list (string * Json F)).
Arguments JNull {F}.
Arguments JBool {F} b.
Arguments JNum {F} x.
Arguments JStr {F} s.
Arguments JList {F} items.
Arguments JObject {F} fields.

Section Engine.
Context {F : Type} {num : Number F} {f32 : Float32 F}.

(** One row of the market table (a pandas [DataFrame] with these columns). *)
Record Bar : Type := {
  timestamp : Z;
  open : F;
  high : F;
  low : F;
  close : F;
  volume : F
}.

#[local] Abbreviation DataFrame := (list Bar).

(** A two-dimensional array of floats, row major. *)
#[local] Abbreviation Matrix := (list (list F)).

(** What the network is fed: a window of rows (LSTM), or the same window
    flattened by [X.reshape] (every other strategy type). *)
Inductive ModelInput : Type :=
| Sequence (w : Matrix)
| Flat (v : list F).

(** The fitted network, seen only through [model.predict]: one probability
    per input sample, in single precision. *)
Definition Model : Type := ModelInput → float32.

Definition earlier (a b : Bar) : Prop := (timestamp a ≤ timestamp b)%Z.

(** The external collaborators.

    pandas: [data.sort_values('timestamp')] returns the rows in ascending
    timestamp order; the default sort is not stable, so nothing is known of
    the order of rows with equal timestamps.

    scikit-learn: [MinMaxScaler.fit_transform] rejects an array without rows
    and otherwise returns an array of the shape it was given; and the four
    classification scores used by [evaluate]. *)
Class Collaborators : Type := {
  sort_values : DataFrame → DataFrame;
  sort_values_Permutation : ∀ data, sort_values data ≡ₚ data;
  sort_values_sorted : ∀ data, StronglySorted earlier (sort_values data);
  fit_transform : Matrix → Result Matrix;
  fit_transform_empty : fit_transform [] = Raise no_samples;
  fit_transform_shape :
    ∀ m, m ≠ [] → ∃ scaled, fit_transform m = Return scaled ∧ length scaled = length m;
  accuracy_score : list Z → list Z → F;
  precision_score : list Z → list Z → F;
  recall_score : list Z → list Z → F;
  f1_score : list Z → list Z → F
}.
Context {ext : Collaborators}.

Record AIAgent : Type := {
  agent_id : string;
  name : string;
  strategy_type : string;
  risk_level : F;
  metadata : gmap string (Json F);
  model : option Model;
  trained : bool;
  performance_metrics : gmap string F
}.

(** ** [preprocess_data] *)

(** [data[['open', 'high', 'low', 'close', 'volume']].values] *)
Definition ohlcv_values (data : DataFrame) : Matrix :=
  fmap (λ b, [open b; high b; low b; close b; volume b]) data.

(** The body of the loop [for i in range(len(scaled_features) - sequence_length)],
    over the indices still to visit. *)
Fixpoint window_loop (scaled_features features : Matrix) (sequence_length : nat)
    (indices : list nat) : Result (list Matrix * list Z) :=
  match indices with
  | [] => Return ([], [])
  | i :: rest =>
      let window := take sequence_length (drop i scaled_features) in
      next ← py_index2 features (Z.of_nat i + Z.of_nat sequence_length) 3;
      prev ← py_index2 features (Z.of_nat i + Z.of_nat sequence_length - 1) 3;
      let price_change := if fgt next prev then 1%Z else 0%Z in
      '(X, y) ← window_loop scaled_features features sequence_length rest;
      Return (window :: X, price_change :: y)
  end.

Definition preprocess_data (data : DataFrame) (sequence_length : nat)
    : Result (list Matrix * list Z) :=
  let data := sort_values data in
  let features := ohlcv_values data in
  scaled_features ← fit_transform features;
  window_loop scaled_features features sequence_length
    (seq 0 (length scaled_features - sequence_length)).

(** ** [predict] *)

Record Prediction : Type := {
  pred_timestamp : string;
  signal : Signal;
  confidence : F;
  raw_prediction : F;
  risk_adjusted : F
}.

(** [X.reshape(X.shape[0], X.shape[1] * X.shape[2])] unless the strategy is
    the LSTM. *)
Definition model_inputs (strategy : string) (X : list Matrix) : list ModelInput :=
  if decide (strategy = "lstm") then fmap Sequence X
  else fmap (λ w, Flat (concat w)) X.

(** The threshold rule of [predict], lines 213-214: each threshold is
    computed in double precision and cast to [float32] for the comparison
    with the [float32] scalar [latest_pred]. *)
Definition trading_signal (risk : F) (latest_pred : float32) : Signal :=
  if sgt latest_pred (weak (fadd (literal (1#2)) (fmul (literal (1#10)) risk))) then buy
  else if slt latest_pred (weak (fsub (literal (1#2)) (fmul (literal (1#10)) risk))) then sell
  else hold.

(** [abs(latest_pred - 0.5) * 2], line 217, in single precision. *)
Definition confidence32 (latest_pred : float32) : float32 :=
  smul (sabs (ssub latest_pred (weak (literal (1#2))))) (weak (of_int 2)).

(** [float(confidence)], line 224. *)
Definition prediction_confidence (latest_pred : float32) : F :=
  widen (confidence32 latest_pred).

Definition predict (self : AIAgent) (now : string) (market_data : DataFrame)
    : Result Prediction :=
  match trained self, model self with
  | true, Some m =>
      '(X, _) ← preprocess_data market_data 60;
      if decide (length X = 0) then
        Raise (ValueError "Not enough data for prediction after preprocessing")
      else
        let prediction := fmap m (model_inputs (strategy_type self) X) in
        latest_pred ← py_index prediction (-1);
        Return {| pred_timestamp := now;
                  signal := trading_signal (risk_level self) latest_pred;
                  confidence := prediction_confidence latest_pred;
                  raw_prediction := widen latest_pred;
                  risk_adjusted := risk_level self |}
  | _, _ => Raise (ValueError "Model not trained. Please train the model first.")
  end.

(** ** [execute_strategy] *)

Record Position : Type := {
  in_position : bool;
  buy_price : F;
  quantity : F
}.

Record Execution : Type := {
  exec_timestamp : string;
  action : Signal;
  price : F;
  balance : F;
  position : Position;
  prediction : Prediction;
  profit_loss : F
}.

(** The branches of lines 259-295 and the fields they leave behind:
    the action, the new balance, the position dictionary after the in-place
    updates, and [profit_loss], which the buy branch never assigns and the
    result reads as [0] through ['profit_loss' in locals()]. *)
Definition apply_signal (risk : F) (sig : Signal) (conf current_price bal : F)
    (pos : Position) : Signal * F * Position * F :=
  match sig, in_position pos with
  | buy, false =>
      let position_size := fmul (fmul bal conf) risk in
      let qty := fdiv position_size current_price in
      (buy, fsub bal position_size,
       {| in_position := true; buy_price := current_price; quantity := qty |},
       of_int 0)
  | sell, true =>
      let position_value := fmul (quantity pos) current_price in
      let pl := fsub position_value (fmul (quantity pos) (buy_price pos)) in
      (sell, fadd bal position_value,
       {| in_position := false; buy_price := of_int 0; quantity := of_int 0 |},
       pl)
  | _, _ =>
      let pl :=
        if in_position pos
        then fmul (fsub current_price (buy_price pos)) (quantity pos)
        else of_int 0 in
      (hold, bal, pos, pl)
  end.

(** The position a caller gets when it passes [None] (lines 251-256). *)
Definition flat_position : Position :=
  {| in_position := false; buy_price := of_int 0; quantity := of_int 0 |}.

(** The clock is read twice: [now] inside [predict], [finished] when the
    result dictionary is built (line 298). *)
Definition execute_strategy (self : AIAgent) (now finished : string)
    (market_data : DataFrame) (bal : F) (pos : option Position) : Result Execution :=
  pred ← predict self now market_data;
  current_price ← py_index (fmap close market_data) (-1);
  let pos := default flat_position pos in
  let '(act, new_balance, pos', pl) :=
    apply_signal (risk_level self) (signal pred) (confidence pred) current_price bal pos in
  Return {| exec_timestamp := finished;
            action := act;
            price := current_price;
            balance := new_balance;
            position := pos';
            prediction := pred;
            profit_loss := pl |}.

(** ** [evaluate] *)

Record Trade : Type := {
  trade_action : Signal;
  trade_price : F;
  trade_timestamp : Z;
  trade_profit_loss : option F       (* the key exists on sell records only *)
}.

(** [position is None or not position['in_position']] *)
Definition is_flat (pos : option Position) : bool :=
  match pos with
  | None => true
  | Some p => negb (in_position p)
  end.

(** The simulation loop of lines 441-467, at step [i] with the predictions
    from [i] on still to replay. A sell only clears the flag of the position
    dictionary; the entry price and quantity stay in it. *)
Fixpoint trading_loop (test_data : DataFrame) (y_pred : list Z) (i : nat)
    (bal : F) (pos : option Position) (trades : list Trade)
    : Result (F * option Position * list Trade) :=
  match y_pred with
  | [] => Return (bal, pos, trades)
  | p :: rest =>
      let sig := if fgt (of_int p) (literal (1#2)) then buy else sell in
      px ← py_index (fmap close test_data) (Z.of_nat i + 60);
      match sig, is_flat pos, pos with
      | buy, true, _ =>
          ts ← py_index (fmap timestamp test_data) (Z.of_nat i + 60);
          trading_loop test_data rest (S i) (of_int 0)
            (Some {| in_position := true; buy_price := px; quantity := fdiv bal px |})
            (trades ++ [{| trade_action := buy; trade_price := px;
                           trade_timestamp := ts; trade_profit_loss := None |}])
      | sell, false, Some held =>
          ts ← py_index (fmap timestamp test_data) (Z.of_nat i + 60);
          trading_loop test_data rest (S i) (fmul (quantity held) px)
            (Some {| in_position := false; buy_price := buy_price held;
                     quantity := quantity held |})
            (trades ++ [{| trade_action := sell; trade_price := px;
                           trade_timestamp := ts;
                           trade_profit_loss :=
                             Some (fmul (fsub px (buy_price held)) (quantity held)) |}])
      | _, _, _ => trading_loop test_data rest (S i) bal pos trades
      end
  end.

(** Lines 437-467: the replay from a balance of 10000.0 and no position. *)
Definition simulate_trading (test_data : DataFrame) (y_pred : list Z)
    : Result (F * option Position * list Trade) :=
  trading_loop test_data y_pred 0 (literal (10000#1)) None [].

(** Lines 469-472: an open position is valued at the last close. *)
Definition final_balance (test_data : DataFrame) (bal : F) (pos : option Position)
    : Result F :=
  match pos with
  | Some held =>
      if in_position held then
        final_price ← py_index (fmap close test_data) (-1);
        Return (fmul (quantity held) final_price)
      else Return bal
  | None => Return bal
  end.

Definition sell_trades (trades : list Trade) : list Trade :=
  filter (λ t, trade_action t = sell) trades.

Definition winning_trades (trades : list Trade) : list Trade :=
  filter (λ t, trade_action t = sell ∧
               fgt (default (of_int 0) (trade_profit_loss t)) (of_int 0) = true) trades.

(** Line 479. *)
Definition win_rate (trades : list Trade) : F :=
  if decide (0 < length (sell_trades trades))
  then fdiv (of_int (Z.of_nat (length (winning_trades trades))))
            (of_int (Z.of_nat (length (sell_trades trades))))
  else of_int 0.

(** [(y_pred_prob > 0.5).astype(int)]: the [float32] answers against the
    threshold cast to [float32]. *)
Definition predicted_classes (m : Model) (inputs : list ModelInput) : list Z :=
  fmap (λ x, if sgt (m x) (weak (literal (1#2))) then 1%Z else 0%Z) inputs.

(** Lines 411-467 of [evaluate]: the guards, the predicted classes and the
    replay; the labels, the classes and the state the loop ends in. *)
Definition backtest (self : AIAgent) (test_data : DataFrame)
    : Result (list Z * list Z * (F * option Position * list Trade)) :=
  match trained self, model self with
  | true, Some m =>
      '(X, y_true) ← preprocess_data test_data 60;
      if decide (length X = 0) then
        Raise (ValueError "Not enough data for evaluation after preprocessing")
      else
        let y_pred := predicted_classes m (model_inputs (strategy_type self) X) in
        run ← simulate_trading test_data y_pred;
        Return (y_true, y_pred, run)
  | _, _ => Raise (ValueError "Model not trained. Please train the model first.")
  end.

(** Lines 481-492: the dictionary of performance metrics. *)
Definition metrics_dict (y_true y_pred : list Z) (bal : F) (trades : list Trade)
    : gmap string F :=
  let pl := fsub bal (literal (10000#1)) in
  let pl_pct := fmul (fdiv pl (literal (10000#1))) (of_int 100) in
  <["accuracy" := accuracy_score y_true y_pred]>
  (<["precision" := precision_score y_true y_pred]>
  (<["recall" := recall_score y_true y_pred]>
  (<["f1_score" := f1_score y_true y_pred]>
  (<["profit_loss" := pl]>
  (<["profit_loss_pct" := pl_pct]>
  (<["win_rate" := win_rate trades]>
  (<["num_trades" := of_int (Z.of_nat (length (sell_trades trades)))]>
  (<["final_balance" := bal]> ∅)))))))).

(** [evaluate] returns the metrics and stores them in the agent. *)
Definition evaluate (self : AIAgent) (test_data : DataFrame)
    : Result (AIAgent * gmap string F) :=
  '(y_true, y_pred, (bal, pos, trades)) ← backtest self test_data;
  bal ← final_balance test_data bal pos;
  let metrics := metrics_dict y_true y_pred bal trades in
  Return ({| agent_id := agent_id self; name := name self;
             strategy_type := strategy_type self;
             risk_level := risk_level self; metadata := metadata self;
             model := model self; trained := trained self;
             performance_metrics := metrics |}, metrics).

(** ** The agent record: [__init__], [to_dict], [from_dict] *)

(** A JSON-shaped agent dictionary. A key may be missing ([None] here), which
    is all that [dict.get(key, default)] observes. [to_dict] never writes
    [created_at]; the metadata file of [save_model] does. *)
Record AgentDict : Type := {
  d_agent_id : option string;
  d_name : option string;
  d_strategy_type : option string;
  d_risk_level : option F;
  d_trained : option bool;
  d_performance_metrics : option (gmap string F);
  d_created_at : option string;
  d_metadata : option (gmap string (Json F))
}.

(** The part of the file system the agents use: the value of the environment
    variable [MODEL_SAVE_PATH] (['./models'] when unset), the saved networks
    and the metadata files, each under the path the program opens it with.
    Paths are the strings [os.path.join] builds: ids such as ['a'] and ['a/']
    have the same files, an id with a separator has them in a nested
    directory. *)
Record Disk : Type := {
  MODEL_SAVE_PATH : string;
  model_file : gmap string Model;
  metadata_file : gmap string AgentDict
}.

(** [self.model_dir] of the agent with the given id. *)
Definition model_dir (disk : Disk) (id : string) : string :=
  join (MODEL_SAVE_PATH disk) id.

Definition model_path (disk : Disk) (id : string) : string :=
  join (model_dir disk id) "model.h5".

Definition metadata_path (disk : Disk) (id : string) : string :=
  join (model_dir disk id) "metadata.json".

(** [AIAgent.__init__] at wall-clock second [clock]. An id that is [None] or
    empty becomes [str(int(time.time()))]. *)
Definition init (clock : Z) (id : option string) (nm strategy : string) (risk : F)
    (meta : option (gmap string (Json F))) : AIAgent :=
  {| agent_id := match id with
                 | Some s => if decide (s = "") then pretty clock else s
                 | None => pretty clock
                 end;
     name := nm;
     strategy_type := strategy;
     risk_level := risk;
     metadata := default ∅ meta;
     model := None;
     trained := false;
     performance_metrics :=
       <["accuracy" := of_int 0]> (<["profit_loss" := of_int 0]>
       (<["win_rate" := of_int 0]> (<["sharpe_ratio" := of_int 0]> ∅))) |}.

Definition to_dict (self : AIAgent) : AgentDict :=
  {| d_agent_id := Some (agent_id self);
     d_name := Some (name self);
     d_strategy_type := Some (strategy_type self);
     d_risk_level := Some (risk_level self);
     d_trained := Some (trained self);
     d_performance_metrics := Some (performance_metrics self);
     d_created_at := None;
     d_metadata := Some (metadata self) |}.

(** [save_model]: nothing is written without a model. *)
Definition save_model (self : AIAgent) (now : string) (disk : Disk) : bool * Disk :=
  match model self with
  | None => (false, disk)
  | Some m =>
      (true,
       {| MODEL_SAVE_PATH := MODEL_SAVE_PATH disk;
          model_file := <[model_path disk (agent_id self) := m]> (model_file disk);
          metadata_file :=
            <[metadata_path disk (agent_id self) :=
                {| d_agent_id := Some (agent_id self);
                   d_name := Some (name self);
                   d_strategy_type := Some (strategy_type self);
                   d_risk_level := Some (risk_level self);
                   d_trained := Some (trained self);
                   d_performance_metrics := Some (performance_metrics self);
                   d_created_at := Some now;
                   d_metadata := Some (metadata self) |}]> (metadata_file disk) |})
  end.

(** [load_model]: a truthy [id] renames the agent first; without a model file
    the call returns [False]; with one, the fields of [metadata.json] (when the
    file exists) replace those of the agent. *)
Definition load_model (self : AIAgent) (id : option string) (disk : Disk)
    : bool * AIAgent :=
  let aid := match id with
             | Some s => if decide (s = "") then agent_id self else s
             | None => agent_id self
             end in
  match model_file disk !! model_path disk aid with
  | None =>
      (false,
       {| agent_id := aid; name := name self; strategy_type := strategy_type self;
          risk_level := risk_level self; metadata := metadata self;
          model := model self; trained := trained self;
          performance_metrics := performance_metrics self |})
  | Some m =>
      match metadata_file disk !! metadata_path disk aid with
      | None =>
          (true,
           {| agent_id := aid; name := name self;
              strategy_type := strategy_type self;
              risk_level := risk_level self; metadata := metadata self;
              model := Some m; trained := trained self;
              performance_metrics := performance_metrics self |})
      | Some md =>
          (true,
           {| agent_id := aid;
              name := default (name self) (d_name md);
              strategy_type := default (strategy_type self) (d_strategy_type md);
              risk_level := default (risk_level self) (d_risk_level md);
              metadata := default ∅ (d_metadata md);
              model := Some m;
              trained := default false (d_trained md);
              performance_metrics :=
                default (performance_metrics self) (d_performance_metrics md) |})
      end
  end.

(** [from_dict]: the constructor, then the two fields it does not take, then
    [load_model()] when the record says the agent is trained. *)
Definition from_dict (clock : Z) (disk : Disk) (data : AgentDict) : AIAgent :=
  let agent :=
    init clock (d_agent_id data)
      (default "Default Agent" (d_name data))
      (default "lstm" (d_strategy_type data))
      (default (literal (1#2)) (d_risk_level data))
      (Some (default ∅ (d_metadata data))) in
  let agent :=
    {| agent_id := agent_id agent; name := name agent;
       strategy_type := strategy_type agent; risk_level := risk_level agent;
       metadata := metadata agent; model := model agent;
       trained := default false (d_trained data);
       performance_metrics := default ∅ (d_performance_metrics data) |} in
  if trained agent then (load_model agent None disk).2 else agent.

(** ** [train] *)

(** Keras, as [train] uses it: [build_model] for a fresh network and
    [model.fit], which raises (for instance when the samples cannot be split
    by [validation_split=0.2]) or returns the fitted network and the
    per-epoch ['val_accuracy'] history. *)
Record Keras : Type := {
  build_model : string → Model;
  fit : Model → list ModelInput → list Z → Result (Model * list F)
}.

(** [train]: the model is saved (line 173) before the accuracy and the
    [trained] flag are updated (lines 176-177). *)
Definition train (keras : Keras) (self : AIAgent) (now : string) (disk : Disk)
    (training_data : DataFrame) : Result (AIAgent * Disk * list F) :=
  '(X, y) ← preprocess_data training_data 60;
  if decide (length X = 0) then
    Raise (ValueError "Not enough data for training after preprocessing")
  else
    let m0 := default (build_model keras (strategy_type self)) (model self) in
    '(m, val_accuracy) ← fit keras m0 (model_inputs (strategy_type self) X) y;
    let fitted :=
      {| agent_id := agent_id self; name := name self;
         strategy_type := strategy_type self; risk_level := risk_level self;
         metadata := metadata self; model := Some m; trained := trained self;
         performance_metrics := performance_metrics self |} in
    let disk' := (save_model fitted now disk).2 in
    acc ← py_index val_accuracy (-1);
    Return ({| agent_id := agent_id self; name := name self;
               strategy_type := strategy_type self; risk_level := risk_level self;
               metadata := metadata self; model := Some m; trained := true;
               performance_metrics := <["accuracy" := acc]> (performance_metrics self) |},
            disk', val_accuracy).

End Engine.

Arguments Bar F : clear implicits.
Arguments ModelInput F : clear implicits.
Arguments Model F {f32}.
Arguments Collaborators F : clear implicits.
Arguments AIAgent F {f32}.
Arguments Prediction F : clear implicits.
Arguments Position F : clear implicits.
Arguments Execution F : clear implicits.
Arguments Trade F : clear implicits.
Arguments AgentDict F : clear implicits.
Arguments Disk F {f32}.
Arguments Keras F {f32}.

Abbreviation DataFrame F := (list (Bar F)).
Abbreviation Matrix F := (list (list F)).

(** ** [AgentFactory] *)

Module AgentFactory.
Section AgentFactory.
Context {F : Type} {num : Number F} {f32 : Float32 F}.

(** [AgentFactory.create_agent]: the constructor without an id. *)
Definition create_agent (clock : Z) (nm strategy : string) (risk : F)
    (meta : option (gmap string (Json F))) : AIAgent F :=
  init clock None nm strategy risk meta.

(** [AgentFactory.load_agent]: a default agent with the given id, then
    [load_model()]; [None] when that reports failure. *)
Definition load_agent (clock : Z) (disk : Disk F) (id : string) : option (AIAgent F) :=
  let agent := init clock (Some id) "Default Agent" "lstm" (literal (1#2)) None in
  let '(success, agent) := load_model agent None disk in
  if success then Some agent else None.

End AgentFactory.
End AgentFactory.

(** ** The command-line operations of [src/scripts] *)

(** The result envelope [{'success': True, ...}] or
    [{'success': False, 'error': ...}]. *)
Inductive Envelope (A : Type) : Type :=
| Success (payload : A)
| Failure (error : string).
Arguments Success {A} payload.
Arguments Failure {A} error.

(** [str(e)] of the exceptions the engine raises. *)
Definition str (e : PyError) : string :=
  match e with
  | ValueError msg => msg
  | IndexError msg => msg
  end.

Module Scripts.
Section Scripts.
Context {F : Type} {num : Number F} {f32 : Float32 F} {ext : Collaborators F}.

Record PredictionResponse : Type := {
  pr_agent_id : string;
  pr_name : string;
  pr_prediction : Prediction F;
  pr_timestamp : string
}.

Record ExecutionResponse : Type := {
  er_agent_id : string;
  er_name : string;
  er_execution : Execution F;
  er_timestamp : string
}.

Record CreateResponse : Type := {
  cr_agent_id : string;
  cr_name : string;
  cr_strategy_type : string;
  cr_risk_level : F;
  cr_metadata_hash : string;
  cr_performance_metrics : gmap string F;
  cr_created_at : string
}.

(** [make_prediction] of [scripts/predict.py]; [now] is the clock reading
    inside [predict], [answered] the one of the envelope. *)
Definition make_prediction (clock : Z) (now answered : string) (disk : Disk F)
    (id : string) (market_data : list (Bar F)) : Envelope PredictionResponse :=
  match AgentFactory.load_agent clock disk id with
  | None => Failure ("Agent with ID " +:+ id +:+ " not found")
  | Some agent =>
      if negb (trained agent) then
        Failure ("Agent with ID " +:+ id +:+ " is not trained")
      else
        match predict agent now market_data with
        | Return pred =>
            Success {| pr_agent_id := agent_id agent; pr_name := name agent;
                       pr_prediction := pred; pr_timestamp := answered |}
        | Raise e => Failure (str e)
        end
  end.

(** [execute_strategy] of [scripts/execute_strategy.py]; [now] and [finished]
    are the two clock readings of the engine, [answered] the one of the
    envelope. *)
Definition execute_strategy (clock : Z) (now finished answered : string)
    (disk : Disk F) (id : string) (market_data : list (Bar F)) (bal : F)
    (pos : option (Position F)) : Envelope ExecutionResponse :=
  match AgentFactory.load_agent clock disk id with
  | None => Failure ("Agent with ID " +:+ id +:+ " not found")
  | Some agent =>
      if negb (trained agent) then
        Failure ("Agent with ID " +:+ id +:+ " is not trained")
      else
        match execute_strategy agent now finished market_data bal pos with
        | Return ex =>
            Success {| er_agent_id := agent_id agent; er_name := name agent;
                       er_execution := ex; er_timestamp := answered |}
        | Raise e => Failure (str e)
        end
  end.

(** [create_agent] of [scripts/create_agent.py], with the SHA-256 of the
    serialized record as a parameter: the response and the disk after the
    call to [save_model]. *)
Definition create_agent (digest : AgentDict F → string) (clock : Z)
    (saved_at created_at : string) (disk : Disk F) (nm strategy : string) (risk : F)
    (meta : option (gmap string (Json F))) : Envelope CreateResponse * Disk F :=
  let agent := AgentFactory.create_agent clock nm strategy risk meta in
  let disk' := (save_model agent saved_at disk).2 in
  (Success {| cr_agent_id := agent_id agent; cr_name := name agent;
              cr_strategy_type := strategy_type agent;
              cr_risk_level := risk_level agent;
              cr_metadata_hash := digest (to_dict agent);
              cr_performance_metrics := performance_metrics agent;
              cr_created_at := created_at |},
   disk').

End Scripts.
End Scripts.

(** ** Reference collaborators

    Executable stand-ins for pandas and scikit-learn, used to run the engine
    on concrete tables: a sort by timestamp, min-max scaling of every column
    to [0, 1] (a constant column is divided by 1, as [MinMaxScaler] does) and
    the four scores with [zero_division=0]. *)
Section Reference.
Context {F : Type} {num : Number F} {f32 : Float32 F}.

Fixpoint insert_by_timestamp (b : Bar F) (l : DataFrame F) : DataFrame F :=
  match l with
  | [] => [b]
  | c :: l' =>
      if (timestamp b <=? timestamp c)%Z then b :: l
      else c :: insert_by_timestamp b l'
  end.

Definition insertion_sort (data : DataFrame F) : DataFrame F :=
  foldr insert_by_timestamp [] data.

Lemma insert_by_timestamp_Permutation (b : Bar F) (data : DataFrame F) :
  insert_by_timestamp b data ≡ₚ b :: data.
Proof.
  induction data as [|c l IH]; cbn; [done|].
  destruct (timestamp b <=? timestamp c)%Z; [done|].
  rewrite IH. apply Permutation_swap.
Qed.

Lemma insertion_sort_Permutation (data : DataFrame F) : insertion_sort data ≡ₚ data.
Proof.
  unfold insertion_sort. induction data as [|b l IH]; cbn; [done|].
  by rewrite insert_by_timestamp_Permutation, IH.
Qed.

Lemma insert_by_timestamp_sorted (b : Bar F) (data : DataFrame F) :
  StronglySorted earlier data → StronglySorted earlier (insert_by_timestamp b data).
Proof.
  induction 1 as [|c l Hl IH Hc]; cbn; [by repeat constructor|].
  destruct (Z.leb_spec (timestamp b) (timestamp c)) as [Hle|Hgt].
  - constructor; [by constructor|]. constructor; [done|].
    eapply Forall_impl; [exact Hc|]. unfold earlier. cbn. lia.
  - constructor; [done|].
    rewrite insert_by_timestamp_Permutation. constructor; [|done].
    unfold earlier. lia.
Qed.

Lemma insertion_sort_sorted (data : DataFrame F) :
  StronglySorted earlier (insertion_sort data).
Proof.
  unfold insertion_sort. induction data as [|b l IH]; cbn; [constructor|].
  by apply insert_by_timestamp_sorted.
Qed.

Definition fmin (a b : F) : F := if flt b a then b else a.
Definition fmax (a b : F) : F := if fgt b a then b else a.

Definition column (j : nat) (m : list (list F)) : list F :=
  omap (λ row, row !! j) m.

Definition scale_entry (m : list (list F)) (j : nat) (x : F) : F :=
  let col := column j m in
  let lo := foldr fmin x col in
  let hi := foldr fmax x col in
  let range := fsub hi lo in
  let scale :=
    fdiv (of_int 1)
         (if flt range (literal (10 # 4503599627370496)) then of_int 1 else range) in
  fadd (fmul x scale) (fsub (of_int 0) (fmul lo scale)).

Definition min_max_scale (m : list (list F)) : Result (list (list F)) :=
  match m with
  | [] => Raise no_samples
  | _ => Return (fmap (λ row, imap (scale_entry m) row) m)
  end.

Lemma min_max_scale_shape (m : list (list F)) :
  m ≠ [] → ∃ scaled, min_max_scale m = Return scaled ∧ length scaled = length m.
Proof.
  intros Hm. destruct m as [|row m']; [done|].
  eexists. split; [done|]. by rewrite length_fmap.
Qed.

Definition count_pairs (t p : Z) (y_true y_pred : list Z) : Z :=
  Z.of_nat (length (filter (λ tp, tp = (t, p)) (zip y_true y_pred))).

Definition ratio_or_zero (n d : Z) : F :=
  if decide (d = 0%Z) then of_int 0 else fdiv (of_int n) (of_int d).

Definition accuracy (y_true y_pred : list Z) : F :=
  fdiv (of_int (Z.of_nat (length (filter (λ tp, tp.1 = tp.2) (zip y_true y_pred)))))
       (of_int (Z.of_nat (length y_true))).

Definition precision (y_true y_pred : list Z) : F :=
  let tp := count_pairs 1 1 y_true y_pred in
  let fp := count_pairs 0 1 y_true y_pred in
  ratio_or_zero tp (tp + fp).

Definition recall (y_true y_pred : list Z) : F :=
  let tp := count_pairs 1 1 y_true y_pred in
  let fn := count_pairs 1 0 y_true y_pred in
  ratio_or_zero tp (tp + fn).

Definition f1 (y_true y_pred : list Z) : F :=
  let tp := count_pairs 1 1 y_true y_pred in
  let fp := count_pairs 0 1 y_true y_pred in
  let fn := count_pairs 1 0 y_true y_pred in
  ratio_or_zero (2 * tp) (2 * tp + fp + fn).

#[export] Instance libraries : Collaborators F := {|
  sort_values := insertion_sort;
  sort_values_Permutation := insertion_sort_Permutation;
  sort_values_sorted := insertion_sort_sorted;
  fit_transform := min_max_scale;
  fit_transform_empty := eq_refl;
  fit_transform_shape := min_max_scale_shape;
  accuracy_score := accuracy;
  precision_score := precision;
  recall_score := recall;
  f1_score := f1
|}.

(** A table of [n] one-minute bars whose close at row [i] is [closes i]. *)
Definition bars (closes : nat → Q) (n : nat) : DataFrame F :=
  fmap (λ i, {| timestamp := 60 * Z.of_nat i;
               open := literal (closes i); high := literal (closes i);
               low := literal (closes i); close := literal (closes i);
               volume := of_int 1 |}) (seq 0 n).

(** A network that answers the same probability for every input. *)
Definition constant_model (p : Q) : Model F := λ _, weak (literal p).

Definition fitted_agent (risk p : Q) : AIAgent F :=
  {| agent_id := "agent-1"; name := "Default Agent"; strategy_type := "lstm";
     risk_level := literal risk; metadata := ∅;
     model := Some (constant_model p); trained := true;
     performance_metrics := ∅ |}.

(** Rising closes 100, 101, ... with the close [final] at row 60. *)
Definition closes_ending_at (final : Q) (i : nat) : Q :=
  if decide (i = 60) then final else inject_Z (100 + Z.of_nat i).

(** A network that answers the scaled close of the first row of its window. *)
Definition first_close_model : Model F :=
  λ x, match x with
       | Sequence ((_ :: _ :: _ :: c :: _) :: _) => weak c
       | _ => weak (of_int 0)
       end.

(** Closes 200, 100, 200 on the first three rows, 150 up to row 60, then
    180 and 170: with [first_close_model] the predicted classes of a table of
    63 rows are 1, 0, 1. *)
Definition zigzag_closes (i : nat) : Q :=
  match i with
  | 0 | 2 => inject_Z 200
  | 1 => inject_Z 100
  | 61 => inject_Z 180
  | 62 => inject_Z 170
  | _ => inject_Z 150
  end.

Definition zigzag_agent : AIAgent F :=
  {| agent_id := "agent-2"; name := "Default Agent"; strategy_type := "lstm";
     risk_level := literal (1#2); metadata := ∅;
     model := Some first_close_model; trained := true;
     performance_metrics := ∅ |}.

(** A training backend that cannot split a single sample into a training and
    a validation part, and whose fit otherwise ends at a validation accuracy
    of 0.75. *)
Definition stub_keras : Keras F :=
  {| build_model := λ _, constant_model (1#2);
     fit := λ _ X _,
       if decide (length X ≤ 1) then
         Raise (ValueError "Training data contains 1 samples, which is not sufficient to split it into a validation and training set as specified by `validation_split=0.2`. Either provide more data, or a different value for the `validation_split` argument.")
       else Return (constant_model 1, [literal (1#2); literal (3#4)]) |}.

Definition empty_disk : Disk F :=
  {| MODEL_SAVE_PATH := "./models"; model_file := ∅; metadata_file := ∅ |}.

(** [AIAgent(name="Momentum")] created at second 1700000000. *)
Definition fresh_agent : AIAgent F :=
  init 1700000000 None "Momentum" "lstm" (literal (1#2)) None.

End Reference.

(** ** Vocabulary of the properties *)

Section Ledger.
Context {F : Type} {f32 : Float32 F}.

Definition other_action (s : Signal) : Signal :=
  match s with
  | buy => sell
  | sell => buy
  | hold => hold
  end.

(** The actions of [trades] are [s], then the other one, and so on. *)
Fixpoint alternates_from (s : Signal) (trades : list (Trade F)) : Prop :=
  match trades with
  | [] => True
  | t :: rest => trade_action t = s ∧ alternates_from (other_action s) rest
  end.

Definition buy_trades (trades : list (Trade F)) : list (Trade F) :=
  filter (λ t, trade_action t = buy) trades.

(** First record a buy, neighbours different, and as many buys as sells or
    one more. *)
Definition strictly_alternating (trades : list (Trade F)) : Prop :=
  (∀ t, head trades = Some t → trade_action t = buy) ∧
  (∀ i t t', trades !! i = Some t → trades !! S i = Some t' →
             trade_action t ≠ trade_action t') ∧
  (length (buy_trades trades) = length (sell_trades trades) ∨
   length (buy_trades trades) = S (length (sell_trades trades))).

(** The action the backtest loop can record next, given the position it
    holds. *)
Definition expected_next (pos : option (Position F)) : Signal :=
  if is_flat pos then buy else sell.

(** The state the backtest loop is in, read off its ledger: no position
    before the first record; after a buy, no cash and the entry price of that
    record; after a sell, the proceeds of that record as cash, and its
    realized profit/loss computed from the entry price and quantity the
    position dictionary still holds. *)
Definition ledger_matches `{Number F} (bal : F) (pos : option (Position F))
    (trades : list (Trade F)) : Prop :=
  match pos with
  | None => trades = []
  | Some held =>
      ∃ t, last trades = Some t ∧
        if in_position held then
          trade_action t = buy ∧ trade_price t = buy_price held ∧
          trade_profit_loss t = None ∧ bal = of_int 0
        else
          trade_action t = sell ∧
          trade_profit_loss t =
            Some (fmul (fsub (trade_price t) (buy_price held)) (quantity held)) ∧
          bal = fmul (quantity held) (trade_price t)
  end.

(** The records of [trades] carry, in order, the close and timestamp of rows
    of [data] with strictly increasing positions, the first one at [lo] or
    later. *)
Fixpoint from_rows (data : list (Bar F)) (lo : nat) (trades : list (Trade F)) : Prop :=
  match trades with
  | [] => True
  | t :: rest =>
      ∃ k bar, lo ≤ k ∧ data !! k = Some bar ∧
               trade_price t = close bar ∧ trade_timestamp t = timestamp bar ∧
               from_rows data (S k) rest
  end.

(** Two agents agree on the seven fields of the persisted agent record. *)
Definition same_record (a b : AIAgent F) : Prop :=
  agent_id a = agent_id b ∧ name a = name b ∧
  strategy_type a = strategy_type b ∧ risk_level a = risk_level b ∧
  trained a = trained b ∧ performance_metrics a = performance_metrics b ∧
  metadata a = metadata b.




Definition not_enough_for_training : PyError :=
  ValueError "Not enough data for training after preprocessing".

End Ledger.

(** * Properties *)

(** ** Indexing *)

Section Indexing.
Context {A : Type}.
Implicit Types (l : list A) (x : A).

Lemma py_index_nat l (k : nat) :
  py_index l (Z.of_nat k) =
  match l !! k with
  | Some x => Return x
  | None => Raise (IndexError "index out of bounds")
  end.
Proof.
  unfold py_index.
  destruct (Z.ltb_spec (Z.of_nat k) 0) as [Hneg|_]; [lia|].
  destruct (Z.ltb_spec (Z.of_nat k) 0) as [Hneg|_]; [lia|].
  by rewrite Nat2Z.id.
Qed.

Lemma py_index_from_end l (k : nat) :
  0 < k ≤ length l →
  py_index l (- Z.of_nat k) =
  match l !! (length l - k) with
  | Some x => Return x
  | None => Raise (IndexError "index out of bounds")
  end.
Proof.
  intros Hk. unfold py_index.
  destruct (Z.ltb_spec (- Z.of_nat k) 0) as [_|Hpos]; [|lia].
  destruct (Z.ltb_spec (Z.of_nat (length l) + - Z.of_nat k) 0) as [Hneg|_]; [lia|].
  replace (Z.to_nat (Z.of_nat (length l) + - Z.of_nat k)) with (length l - k) by lia.
  done.
Qed.

Lemma py_index_last l x : py_index l (-1) = Return x ↔ last l = Some x.
Proof.
  rewrite last_lookup. destruct l as [|a l'].
  - cbn. split; intros Heq; discriminate Heq.
  - change (-1)%Z with (- Z.of_nat 1)%Z.
    rewrite py_index_from_end by (cbn; lia).
    replace (length (a :: l') - 1) with (pred (length (a :: l'))) by lia.
    destruct ((a :: l') !! pred (length (a :: l'))) as [z|]; split; intros Heq;
      by inversion Heq.
Qed.

Lemma py_index_in_range l (k : Z) :
  (- Z.of_nat (length l) ≤ k < Z.of_nat (length l))%Z →
  ∃ x, py_index l k = Return x.
Proof.
  intros Hk. destruct (Z.neg_nonneg_cases k) as [Hneg|Hpos].
  - replace k with (- Z.of_nat (Z.to_nat (- k)))%Z by lia.
    rewrite py_index_from_end by lia.
    destruct (lookup_lt_is_Some_2 l (length l - Z.to_nat (- k))) as [x ->]; [lia|].
    by exists x.
  - replace k with (Z.of_nat (Z.to_nat k)) by lia.
    rewrite py_index_nat.
    destruct (lookup_lt_is_Some_2 l (Z.to_nat k)) as [x ->]; [lia|].
    by exists x.
Qed.

Lemma py_index_Return_nat l (k : nat) x :
  py_index l (Z.of_nat k) = Return x ↔ l !! k = Some x.
Proof.
  rewrite py_index_nat. destruct (l !! k); split; intros Heq; by inversion Heq.
Qed.

End Indexing.

(** ** Windowing *)

Section Windowing.
Context {F : Type} {num : Number F}.
Implicit Types (data : DataFrame F) (L : nat).

Lemma length_ohlcv_values data : length (ohlcv_values data) = length data.
Proof. apply length_fmap. Qed.

(** Column 3 of the feature matrix is the close column. *)
Lemma py_index2_close data (k : Z) :
  py_index2 (ohlcv_values data) k 3 = py_index (close <$> data) k.
Proof.
  unfold py_index2, ohlcv_values, py_index.
  rewrite !length_fmap.
  generalize (if (k <? 0)%Z then (Z.of_nat (length data) + k)%Z else k).
  intros j. destruct (j <? 0)%Z; [done|].
  rewrite !list_lookup_fmap.
  by destruct (data !! Z.to_nat j).
Qed.

(** The loop never raises on in-range indices; the windows are slices of
    the scaled array and the labels compare neighbouring closes of the
    unscaled table. *)
Lemma window_loop_returns (scaled : Matrix F) data L (indices : list nat) :
  Forall (λ i, i + L < length data) indices →
  ∃ y,
    window_loop scaled (ohlcv_values data) L indices =
      Return ((λ i, take L (drop i scaled)) <$> indices, y) ∧
    Forall2 (λ i lbl, ∃ next prev,
               py_index (close <$> data) (Z.of_nat i + Z.of_nat L) = Return next ∧
               py_index (close <$> data) (Z.of_nat i + Z.of_nat L - 1) = Return prev ∧
               lbl = if fgt next prev then 1%Z else 0%Z) indices y.
Proof.
  induction 1 as [|i rest Hi _ IH].
  - exists []. by split; [|constructor].
  - destruct IH as (y & Hloop & Hy).
    destruct (py_index_in_range (close <$> data) (Z.of_nat i + Z.of_nat L))
      as [next Hnext]; [rewrite length_fmap; lia|].
    destruct (py_index_in_range (close <$> data) (Z.of_nat i + Z.of_nat L - 1))
      as [prev Hprev]; [rewrite length_fmap; lia|].
    exists ((if fgt next prev then 1%Z else 0%Z) :: y). split.
    + cbn [window_loop]. rewrite !py_index2_close, Hnext, Hprev. cbn.
      by rewrite Hloop.
    + constructor; [|done]. by exists next, prev.
Qed.

End Windowing.

Section Preprocessing.
Context {F : Type} {num : Number F} {f32 : Float32 F} {ext : Collaborators F}.
Implicit Types (data : DataFrame F) (L : nat) (self : AIAgent F).

Lemma length_sort_values data : length (sort_values data) = length data.
Proof. apply Permutation_length, sort_values_Permutation. Qed.

Lemma sort_values_nil : sort_values (@nil (Bar F)) = [].
Proof. apply Permutation_nil_r, sort_values_Permutation. Qed.

(** An empty table is rejected by the scaler, before any window is cut. *)
Lemma preprocess_data_empty L : preprocess_data (@nil (Bar F)) L = Raise no_samples.
Proof.
  unfold preprocess_data. rewrite sort_values_nil. cbn.
  by rewrite fit_transform_empty.
Qed.

(** What [preprocess_data] returns, for every table with a row and every
    window length. *)
Lemma preprocess_data_returns data L :
  data ≠ [] →
  ∃ scaled y,
    fit_transform (ohlcv_values (sort_values data)) = Return scaled ∧
    length scaled = length data ∧
    preprocess_data data L =
      Return ((λ i, take L (drop i scaled)) <$> seq 0 (length data - L), y) ∧
    Forall2 (λ i lbl, ∃ next prev,
               py_index (close <$> sort_values data) (Z.of_nat i + Z.of_nat L)
                 = Return next ∧
               py_index (close <$> sort_values data) (Z.of_nat i + Z.of_nat L - 1)
                 = Return prev ∧
               lbl = if fgt next prev then 1%Z else 0%Z)
            (seq 0 (length data - L)) y.
Proof.
  intros Hdata.
  destruct (fit_transform_shape (ohlcv_values (sort_values data)))
    as (scaled & Hscaled & Hlen).
  { intros Hnil%(f_equal length).
    rewrite length_ohlcv_values, length_sort_values in Hnil.
    by destruct data. }
  rewrite length_ohlcv_values, length_sort_values in Hlen.
  destruct (window_loop_returns scaled (sort_values data) L (seq 0 (length data - L)))
    as (y & Hloop & Hy).
  { apply Forall_forall. intros i Hi%elem_of_seq. rewrite length_sort_values. lia. }
  exists scaled, y. split; [done|]. split; [done|]. split; [|done].
  unfold preprocess_data. rewrite Hscaled. cbn. by rewrite Hlen.
Qed.




End Preprocessing.

Section WindowingClaim.
Context {F : Type} {num : Number F} {f32 : Float32 F} {ext : Collaborators F}.
Implicit Types (data : DataFrame F) (L : nat) (self : AIAgent F).


End WindowingClaim.

(** ** Signal thresholds *)

Section PredictResult.
Context {F : Type} {num : Number F} {f32 : Float32 F} {ext : Collaborators F}.
Implicit Types (data : DataFrame F) (self : AIAgent F) (res : Prediction F).

(** A prediction is only returned by a trained agent on more than 60 rows,
    and its fields all derive from the last model output. *)
Lemma predict_Return self now data res :
  predict self now data = Return res →
  trained self = true ∧ 60 < length data ∧
  ∃ latest : float32,
    res = {| pred_timestamp := now;
             signal := trading_signal (risk_level self) latest;
             confidence := prediction_confidence latest;
             raw_prediction := widen latest;
             risk_adjusted := risk_level self |}.
Proof.
  unfold predict.
  destruct (trained self); [|intros Heq; discriminate Heq].
  destruct (model self) as [m|]; [|intros Heq; discriminate Heq].
  destruct (decide (data = [])) as [->|Hne].
  { rewrite preprocess_data_empty. intros Heq. discriminate Heq. }
  destruct (preprocess_data_returns data 60 Hne) as (scaled & y & _ & _ & -> & _).
  cbn. rewrite length_fmap, length_seq.
  destruct (decide (length data - 60 = 0)) as [Hshort|Hlong];
    [intros Heq; discriminate Heq|].
  destruct (py_index _ (-1)) as [latest|e]; cbn; [|intros Heq; discriminate Heq].
  intros [= <-]. split; [done|]. split; [lia|]. by exists latest.
Qed.


End PredictResult.

(** ** Rounding to binary32 *)

Section Binary32.
Import SpecFloat.
Local Open Scope Z_scope.

Lemma digits2_pos_bounds (m : positive) :
  2 ^ (Zpos (digits2_pos m) - 1) ≤ Zpos m < 2 ^ Zpos (digits2_pos m).
Proof.
  assert (∀ d : positive, 2 ^ Zpos (Pos.succ d) = 2 * 2 ^ Zpos d) as Hsucc.
  { intros d. rewrite Pos2Z.inj_succ. apply Z.pow_succ_r. lia. }
  assert (∀ d : positive, 2 ^ (Zpos (Pos.succ d) - 1) = 2 ^ Zpos d) as Hpred.
  { intros d. f_equal. lia. }
  assert (∀ d : positive, 2 ^ Zpos d = 2 * 2 ^ (Zpos d - 1)) as Hstep.
  { intros d. rewrite <-Z.pow_succ_r by lia. f_equal. lia. }
  induction m as [m IH|m IH|]; cbn [digits2_pos];
    [rewrite Hsucc, Hpred; rewrite Hstep in IH |- *; lia..|cbn; lia].
Qed.

Lemma iter_pos_nat {A : Type} (f : A → A) (p : positive) (x : A) :
  iter_pos f p x = Nat.iter (Pos.to_nat p) f x.
Proof.
  revert x. induction p as [p IH|p IH|]; intros x; cbn [iter_pos]; [| |done].
  - rewrite !IH, Pos2Nat.inj_xI.
    replace (S (2 * Pos.to_nat p)) with (Pos.to_nat p + (Pos.to_nat p + 1))%nat by lia.
    by rewrite !Nat.iter_add.
  - rewrite !IH, Pos2Nat.inj_xO.
    replace (2 * Pos.to_nat p)%nat with (Pos.to_nat p + Pos.to_nat p)%nat by lia.
    by rewrite Nat.iter_add.
Qed.

Lemma shr_1_spec (m : Z) (r s : bool) :
  0 ≤ m →
  shr_1 {| shr_m := m; shr_r := r; shr_s := s |} =
    {| shr_m := m / 2; shr_r := Z.odd m; shr_s := r || s |}.
Proof.
  intros Hm. rewrite <-Z.div2_div.
  destruct m as [|[p|p|]|p]; (done || lia).
Qed.

(** After [n] halvings the mantissa is the quotient by [2^n]; nothing was
    lost when the mantissa was a multiple of [2^n]. *)
Lemma shr_iter (n : nat) (m : Z) :
  0 ≤ m →
  ∃ r s,
    Nat.iter n shr_1 {| shr_m := m; shr_r := false; shr_s := false |} =
      {| shr_m := m / 2 ^ Z.of_nat n; shr_r := r; shr_s := s |} ∧
    (m mod 2 ^ Z.of_nat n = 0 → r = false ∧ s = false).
Proof.
  intros Hm. induction n as [|n (r & s & IH & Hexact)].
  - exists false, false. cbn. by rewrite Z.div_1_r.
  - exists (Z.odd (m / 2 ^ Z.of_nat n)), (r || s).
    rewrite Nat.iter_succ, IH, shr_1_spec by (apply Z.div_pos; lia). split.
    + f_equal. rewrite Nat2Z.inj_succ, Z.pow_succ_r by lia.
      rewrite Z.div_div by lia. f_equal. lia.
    + rewrite Nat2Z.inj_succ, Z.pow_succ_r by lia. intros Hmod.
      apply Z.mod_divide in Hmod as [k Hk]; [|lia].
      assert (m = (2 * k) * 2 ^ Z.of_nat n) as Hm' by lia.
      destruct Hexact as [-> ->].
      { rewrite Hm'. apply Z.mod_mul. lia. }
      split; [|done]. rewrite Hm', Z.div_mul by lia.
      by rewrite Z.odd_mul.
Qed.

Lemma round_nearest_even_bounds (m : Z) (l : location) :
  m ≤ round_nearest_even m l ≤ m + 1.
Proof. destruct l as [|[]]; cbn; try lia. destruct (Z.even m); lia. Qed.

(** [m * 2^e] is at most [2^K], on a grid that has [2^K]. *)
Definition fits (m e K : Z) : Prop := 0 ≤ m ∧ e ≤ K ∧ m ≤ 2 ^ (K - e).

Lemma Zdigits2_fits (m e K : Z) :
  fits m e K → -149 ≤ K → fexp 24 128 (Zdigits2 m + e) ≤ K.
Proof.
  intros (Hm & He & Hle) HK. unfold fexp, emin.
  destruct m as [|p|p]; cbn [Zdigits2]; [lia| |lia].
  pose proof (digits2_pos_bounds p) as [Hlow _].
  assert (Zpos (digits2_pos p) - 1 ≤ K - e); [|lia].
  apply (Z.pow_le_mono_r_iff 2); lia.
Qed.

(** One [shr_fexp] from an exact mantissa, and the rounding that follows. *)
Lemma shr_fexp_fits (m e K : Z) (mrs : shr_record) (e' : Z) :
  fits m e K → -149 ≤ K →
  shr_fexp 24 128 m e loc_Exact = (mrs, e') →
  fits (shr_m mrs) e' K ∧
  fits (round_nearest_even (shr_m mrs) (loc_of_shr_record mrs)) e' K.
Proof.
  intros Hfits HK. pose proof (Zdigits2_fits m e K Hfits HK) as Hexp.
  destruct Hfits as (Hm & He & Hle).
  unfold shr_fexp, shr. cbn [shr_record_of_loc].
  destruct (fexp 24 128 (Zdigits2 m + e) - e) as [|n|n] eqn:Hn;
    try (intros [= <- <-]; cbn; by repeat split).
  rewrite iter_pos_nat.
  destruct (shr_iter (Pos.to_nat n) m Hm) as (r & s & -> & Hexact).
  rewrite positive_nat_Z in *.
  intros [= <- <-]. cbn [shr_m].
  assert (2 ^ (K - e) = 2 ^ (K - (e + Zpos n)) * 2 ^ Zpos n) as Hsplit.
  { rewrite <-Z.pow_add_r by lia. f_equal. lia. }
  assert (0 < 2 ^ Zpos n) as Hpow by (apply Z.pow_pos_nonneg; lia).
  assert (0 ≤ m / 2 ^ Zpos n) as Hq by (apply Z.div_pos; lia).
  assert (m / 2 ^ Zpos n ≤ 2 ^ (K - (e + Zpos n))) as Hquot.
  { apply Z.div_le_upper_bound; lia. }
  split; [repeat split; lia|].
  pose proof (round_nearest_even_bounds (m / 2 ^ Zpos n)
                (loc_of_shr_record {| shr_m := m / 2 ^ Zpos n; shr_r := r; shr_s := s |}))
    as Hround.
  repeat split; [lia|lia|].
  destruct (decide (m / 2 ^ Zpos n = 2 ^ (K - (e + Zpos n)))) as [Heq|Hne]; [|lia].
  assert (m = 2 ^ (K - (e + Zpos n)) * 2 ^ Zpos n) as Hm'.
  { pose proof (Z.mul_div_le m (2 ^ Zpos n) Hpow). nia. }
  destruct Hexact as [-> ->].
  { rewrite Hm'. apply Z.mod_mul. lia. }
  cbn. lia.
Qed.

(** Rounding to binary32 does not step over a power of two. *)
Lemma binary_round_aux_fits (s : bool) (m e K : Z) :
  fits m e K → -149 ≤ K ≤ 104 →
  binary_round_aux 24 128 s m e loc_Exact = S754_zero s ∨
  ∃ m' e', binary_round_aux 24 128 s m e loc_Exact = S754_finite s m' e' ∧
           fits (Zpos m') e' K.
Proof.
  intros Hfits HK. unfold binary_round_aux.
  destruct (shr_fexp 24 128 m e loc_Exact) as [mrs' e'] eqn:Hfirst.
  destruct (shr_fexp_fits m e K mrs' e' Hfits ltac:(lia) Hfirst) as [_ Hround].
  destruct (shr_fexp 24 128 _ e' loc_Exact) as [mrs'' e''] eqn:Hsecond.
  destruct (shr_fexp_fits _ e' K mrs'' e'' Hround ltac:(lia) Hsecond) as [Hlast _].
  destruct (shr_m mrs'') as [|m''|m''] eqn:Hm''; [by left| |destruct Hlast; lia].
  right. exists m'', e''. split; [|done].
  destruct Hlast as (_ & He'' & _).
  destruct (Z.leb_spec e'' (128 - 24)); [done|lia].
Qed.

Lemma shl_align_spec (m : positive) (e e' : Z) :
  ∃ m', shl_align m e e' = (m', Z.min e e') ∧
        Zpos m' = Zpos m * 2 ^ (e - Z.min e e').
Proof.
  unfold shl_align. destruct (e' - e) as [|d|d] eqn:Hd.
  - exists m. replace (Z.min e e') with e by lia.
    rewrite Z.sub_diag. split; [done|]. lia.
  - exists m. replace (Z.min e e') with e by lia.
    rewrite Z.sub_diag. split; [done|]. lia.
  - eexists. replace (Z.min e e') with e' by lia. split; [done|].
    replace (e - e') with (Zpos d) by lia.
    rewrite <-Z.shiftl_mul_pow2 by lia. cbn [Z.shiftl].
    by rewrite (Pos.iter_swap_gen _ _ Zpos xO (Z.mul 2)).
Qed.

Lemma binary_round_fits (s : bool) (m : positive) (e K : Z) :
  fits (Zpos m) e K → -149 ≤ K ≤ 104 →
  binary_round 24 128 s m e = S754_zero s ∨
  ∃ m' e', binary_round 24 128 s m e = S754_finite s m' e' ∧ fits (Zpos m') e' K.
Proof.
  intros (_ & He & Hle) HK. unfold binary_round.
  destruct (shl_align_spec m e (fexp 24 128 (Zpos (digits2_pos m) + e)))
    as (mz & -> & Hmz).
  set (ez := Z.min e _) in *. assert (ez ≤ e) as Hez by lia.
  apply binary_round_aux_fits; [|done]. rewrite Hmz.
  repeat split; [lia|lia|].
  replace (K - ez) with ((K - e) + (e - ez)) by lia.
  rewrite Z.pow_add_r by lia. apply Z.mul_le_mono_nonneg_r; [|done].
  apply Z.pow_nonneg. lia.
Qed.

Lemma float32_value_fits (m : positive) (e : Z) (q : Q) :
  float32_value (S754_finite false m e) = Some q → (q <= 1)%Q →
  fits (Zpos m) e 0.
Proof.
  intros [= <-]. unfold Qle. destruct e as [|k|k]; cbn [Qnum Qden inject_Z].
  - intros Hle. repeat split; cbn; lia.
  - intros Hle. assert (2 ≤ 2 ^ Zpos k).
    { change 2 with (2 ^ 1) at 1. apply Z.pow_le_mono_r; lia. }
    nia.
  - rewrite Pos2Z.inj_pow. intros Hle. repeat split; [lia..|].
    replace (0 - Zneg k) with (Zpos k) by lia. lia.
Qed.

Lemma fits_float32_value (m : positive) (e : Z) :
  fits (Zpos m) e 0 →
  ∃ c, float32_value (S754_finite false m e) = Some c ∧ (0 <= c <= 1)%Q.
Proof.
  intros (_ & He & Hle). eexists. split; [done|].
  unfold Qle. destruct e as [|k|k]; cbn [Qnum Qden inject_Z]; [|lia|].
  - cbn in Hle. lia.
  - rewrite Pos2Z.inj_pow.
    replace (0 - Zneg k) with (Zpos k) in Hle by lia. lia.
Qed.

(** [|p - 0.5| * 2] in binary32 stays within [0, 1]. *)
Lemma confidence_in_range (p : spec_float) (q : Q) :
  float32_value p = Some q → (0 <= q <= 1)%Q →
  ∃ c, float32_value
         (SFmul 24 128
            (SFabs (SFsub 24 128 p (S754_finite false 8388608 (-24))))
            (S754_finite false 8388608 (-22))) = Some c ∧
       (0 <= c <= 1)%Q.
Proof.
  intros Hp [Hlo Hhi].
  assert (∀ (s : bool) (m1 : positive) (e1 : Z),
    fits (Zpos m1) e1 (-1) →
    ∃ c, float32_value
           (SFmul 24 128 (SFabs (S754_finite s m1 e1))
              (S754_finite false 8388608 (-22))) = Some c ∧
         (0 <= c <= 1)%Q) as Hdouble.
  { intros s m1 e1 (_ & He1 & Hm1). cbn [SFabs SFmul xorb].
    destruct (binary_round_aux_fits false (Zpos (m1 * 8388608)) (e1 + -22) 0)
      as [->|(m2 & e2 & -> & Hfits)]; [|lia| |].
    - repeat split; [lia..|].
      replace (0 - (e1 + -22)) with ((-1 - e1) + 23) by lia.
      rewrite Z.pow_add_r, Pos2Z.inj_mul by lia.
      change (2 ^ 23) with 8388608. nia.
    - by exists 0%Q.
    - by apply fits_float32_value. }
  destruct p as [s|s| |s m e]; try discriminate Hp.
  - destruct s; (eexists; split; [reflexivity|by vm_compute]).
  - destruct s.
    { injection Hp as <-. exfalso. revert Hlo. unfold Qle.
      destruct e; cbn; lia. }
    destruct (float32_value_fits m e q Hp Hhi) as (_ & He & Hm).
    cbn [SFsub cond_Zopp].
    destruct (shl_align_spec m e (Z.min e (-24))) as (mp & -> & Hmp).
    destruct (shl_align_spec 8388608 (-24) (Z.min e (-24))) as (mh & -> & Hmh).
    cbn [fst].
    replace (Z.min (-24) (Z.min e (-24))) with (Z.min e (-24)) in * by lia.
    replace (Z.min e (Z.min e (-24))) with (Z.min e (-24)) in * by lia.
    set (ez := Z.min e (-24)) in *. assert (ez ≤ e ∧ ez ≤ -24) as [Hez Hez'] by lia.
    assert (Zpos mh = 2 ^ (-1 - ez)) as Hhalf.
    { rewrite Hmh. change 8388608 with (2 ^ 23). rewrite <-Z.pow_add_r by lia.
      f_equal. lia. }
    assert (Zpos mp ≤ 2 * 2 ^ (-1 - ez)) as Hone.
    { rewrite <-Z.pow_succ_r by lia.
      replace (Z.succ (-1 - ez)) with ((0 - e) + (e - ez)) by lia.
      rewrite Hmp, Z.pow_add_r by lia.
      apply Z.mul_le_mono_nonneg_r; [apply Z.pow_nonneg; lia|done]. }
    unfold binary_normalize.
    destruct (Zpos mp - Zpos mh) as [|d|d] eqn:Hd.
    + by exists 0%Q.
    + destruct (binary_round_fits false d ez (-1)) as [->|(m1 & e1 & -> & Hfits)];
        [repeat split; lia|lia|by exists 0%Q|by apply Hdouble].
    + destruct (binary_round_fits true d ez (-1)) as [->|(m1 & e1 & -> & Hfits)];
        [repeat split; lia|lia|by exists 0%Q|by apply Hdouble].
Qed.

End Binary32.

Section SignalClaim.
#[local] Abbreviation float := PrimFloat.float.

(** C2. In the arithmetic of the code (the probability a binary32 scalar,
    the risk level a double, each threshold computed in double precision and
    cast to binary32 for the comparison): the signal is [buy] when
    [p > 0.5 + 0.1 r], [sell] when it is not and [p < 0.5 - 0.1 r], and
    [hold] otherwise; the confidence is [|p - 0.5| * 2], computed in
    binary32, and for a probability in [0, 1] it is in [0, 1]. At [r = 0.5]
    the probabilities 0.96, 0.50 and 0.04 give buy, hold and sell, 0.55
    holds and 0.551 buys; and every prediction [predict] returns carries
    this signal and confidence for the last answer of the model. *)
Theorem trading_signal_thresholds (p : SpecFloat.spec_float) (r : float) (q : Q) :
  float32_value p = Some q → (0 <= q <= 1)%Q →
  (trading_signal r p = buy ↔
   sgt p (weak (fadd (literal (1#2)) (fmul (literal (1#10)) r))) = true) ∧
  (trading_signal r p = sell ↔
   sgt p (weak (fadd (literal (1#2)) (fmul (literal (1#10)) r))) = false ∧
   slt p (weak (fsub (literal (1#2)) (fmul (literal (1#10)) r))) = true) ∧
  (trading_signal r p = hold ↔
   sgt p (weak (fadd (literal (1#2)) (fmul (literal (1#10)) r))) = false ∧
   slt p (weak (fsub (literal (1#2)) (fmul (literal (1#10)) r))) = false) ∧
  prediction_confidence p =
    widen (smul (sabs (ssub p (weak (literal (1#2))))) (weak (of_int 2))) ∧
  (∃ c, float32_value (confidence32 p) = Some c ∧ (0 <= c <= 1)%Q) ∧
  (trading_signal (F:=float) (literal (1#2)) (weak (literal (96#100))) = buy ∧
   trading_signal (F:=float) (literal (1#2)) (weak (literal (50#100))) = hold ∧
   trading_signal (F:=float) (literal (1#2)) (weak (literal (4#100))) = sell ∧
   trading_signal (F:=float) (literal (1#2)) (weak (literal (55#100))) = hold ∧
   trading_signal (F:=float) (literal (1#2)) (weak (literal (551#1000))) = buy) ∧
  (∀ (ext : Collaborators float) (self : AIAgent float) now
     (data : DataFrame float) (res : Prediction float),
     predict self now data = Return res →
     ∃ latest : SpecFloat.spec_float,
       signal res = trading_signal (risk_level self) latest ∧
       confidence res = prediction_confidence latest ∧
       raw_prediction res = widen latest).
Proof.
  intros Hp Hq. unfold trading_signal.
  split_and!.
  - destruct (@sgt float binary32 p _); [done|].
    destruct (@slt float binary32 p _); split; intros Heq; discriminate Heq.
  - destruct (@sgt float binary32 p _);
      [split; [intros Heq|intros [Heq _]]; discriminate Heq|].
    destruct (@slt float binary32 p _); [done|].
    split; [intros Heq|intros [_ Heq]]; discriminate Heq.
  - destruct (@sgt float binary32 p _);
      [split; [intros Heq|intros [Heq _]]; discriminate Heq|].
    destruct (@slt float binary32 p _); [|done].
    split; [intros Heq|intros [_ Heq]]; discriminate Heq.
  - done.
  - exact (confidence_in_range p q Hp Hq).
  - by vm_compute.
  - by vm_compute.
  - by vm_compute.
  - by vm_compute.
  - by vm_compute.
  - intros ext self now data res (_ & _ & latest & ->)%predict_Return.
    by exists latest.
Qed.

(** The thresholds at probability 0.96 and risk level 0.5. *)
Lemma trading_signal_thresholds_witness :
  trading_signal (F:=float) (literal (1#2)) (weak (literal (96#100))) = buy ∧
  ∃ c, float32_value (confidence32 (F:=float) (weak (literal (96#100)))) = Some c ∧
       (0 <= c <= 1)%Q.
Proof.
  assert (float32_value (weak (F:=float) (literal (96#100))) = Some (16106127 # 16777216)%Q)
    as Hp by (by vm_compute).
  assert (0 <= 16106127 # 16777216 <= 1)%Q as Hq by (by split; vm_compute).
  destruct (trading_signal_thresholds _ (literal (1#2)) _ Hp Hq)
    as (Hbuy & _ & _ & _ & Hrange & _).
  split; [apply Hbuy; by vm_compute|exact Hrange].
Defined.

End SignalClaim.

(** ** The position step of [execute_strategy] *)

Section StateMachine.
Context {F : Type} {num : Number F} {f32 : Float32 F} {ext : Collaborators F}.
Implicit Types (data : DataFrame F) (self : AIAgent F) (pred : Prediction F).
Implicit Types (pos : Position F) (start : option (Position F)).

(** [execute_strategy] is [predict], the last close, and one [apply_signal]. *)
Lemma execute_strategy_Return self now finished data (b : F) start pred (px : F)
    act (b' : F) pos' (pl : F) :
  predict self now data = Return pred →
  last (close <$> data) = Some px →
  apply_signal (risk_level self) (signal pred) (confidence pred) px b
    (default flat_position start) = (act, b', pos', pl) →
  execute_strategy self now finished data b start =
    Return {| exec_timestamp := finished; action := act; price := px; balance := b';
              position := pos'; prediction := pred; profit_loss := pl |}.
Proof.
  intros Hpred Hpx%py_index_last Hstep. unfold execute_strategy.
  rewrite Hpred. cbn. rewrite Hpx. cbn. by rewrite Hstep.
Qed.

Lemma apply_signal_buy_flat (r c p b : F) pos :
  in_position pos = false →
  apply_signal r buy c p b pos =
    (buy, fsub b (fmul (fmul b c) r),
     {| in_position := true; buy_price := p;
        quantity := fdiv (fmul (fmul b c) r) p |},
     of_int 0).
Proof. intros Hflat. unfold apply_signal. by rewrite Hflat. Qed.

Lemma apply_signal_sell_long (r c p b : F) pos :
  in_position pos = true →
  apply_signal r sell c p b pos =
    (sell, fadd b (fmul (quantity pos) p), flat_position,
     fsub (fmul (quantity pos) p) (fmul (quantity pos) (buy_price pos))).
Proof. intros Hlong. unfold apply_signal. by rewrite Hlong. Qed.

Lemma apply_signal_hold (r : F) (sig : Signal) (c p b : F) pos :
  sig = hold ∨ (sig = sell ∧ in_position pos = false)
             ∨ (sig = buy ∧ in_position pos = true) →
  apply_signal r sig c p b pos =
    (hold, b, pos,
     if in_position pos then fmul (fsub p (buy_price pos)) (quantity pos)
     else of_int 0).
Proof.
  unfold apply_signal.
  intros [->|[[-> Hpos]|[-> Hpos]]]; [by destruct (in_position pos)|..];
    by rewrite Hpos.
Qed.

(** C3, as the code has it. A buy signal acted on from FLAT at a price that
    is not above zero does not fail: [execute_strategy] returns a buy, enters
    the position at that price and divides the position size by it. *)
Theorem buy_at_nonpositive_price self now finished data (b : F) start pred (p : F) :
  predict self now data = Return pred →
  signal pred = buy →
  last (close <$> data) = Some p →
  in_position (default flat_position start) = false →
  fgt p (of_int 0) = false →
  execute_strategy self now finished data b start =
    Return {| exec_timestamp := finished; action := buy; price := p;
              balance := fsub b (fmul (fmul b (confidence pred)) (risk_level self));
              position :=
                {| in_position := true; buy_price := p;
                   quantity :=
                     fdiv (fmul (fmul b (confidence pred)) (risk_level self)) p |};
              prediction := pred; profit_loss := of_int 0 |}.
Proof.
  intros Hpred Hbuy Hpx Hflat _.
  apply execute_strategy_Return; [done..|].
  rewrite Hbuy. by apply apply_signal_buy_flat.
Qed.

(** C4. From FLAT with balance [b], a buy at price [p > 0] with confidence
    [c] and risk level [r] goes LONG with position size [b*c*r], quantity
    [b*c*r / p], entry price [p] and balance [b - b*c*r], both as a step and
    as the result of [execute_strategy]; in binary64, [b = 1000], [c = 1.0],
    [r = 1.0], [p = 100] give quantity 10.0 and balance 0. *)
Theorem buy_from_flat (r c p b : F) pos :
  in_position pos = false →
  fgt p (of_int 0) = true →
  apply_signal r buy c p b pos =
    (buy, fsub b (fmul (fmul b c) r),
     {| in_position := true; buy_price := p;
        quantity := fdiv (fmul (fmul b c) r) p |},
     of_int 0) ∧
  (∀ self now finished data start pred,
     predict self now data = Return pred →
     signal pred = buy → confidence pred = c → risk_level self = r →
     last (close <$> data) = Some p →
     default flat_position start = pos →
     ∃ ex, execute_strategy self now finished data b start = Return ex ∧
           action ex = buy ∧
           balance ex = fsub b (fmul (fmul b c) r) ∧
           position ex =
             {| in_position := true; buy_price := p;
                quantity := fdiv (fmul (fmul b c) r) p |}) ∧
  apply_signal (F:=PrimFloat.float) (literal 1) buy (literal 1) (literal 100)
      (literal 1000) flat_position =
    (buy, literal 0,
     {| in_position := true; buy_price := literal 100; quantity := literal 10 |},
     of_int 0).
Proof.
  intros Hflat _. split; [by apply apply_signal_buy_flat|]. split; [|by vm_compute].
  intros self now finished data start pred Hpred Hbuy <- <- Hpx Hstart.
  eexists. split.
  - apply execute_strategy_Return; [done..|].
    rewrite Hbuy, Hstart. by apply apply_signal_buy_flat.
  - by cbn.
Qed.

(** C5. From LONG with quantity [q], entry price [e] and balance [b], a sell
    at price [p] goes FLAT with realized profit/loss [q*p - q*e], balance
    [b + q*p] and quantity and entry price back at 0; in binary64, [q = 10],
    [e = 100], [b = 0], [p = 120] give profit/loss 200.0 and balance 1200.0. *)
Theorem sell_from_long (r c p b : F) pos :
  in_position pos = true →
  apply_signal r sell c p b pos =
    (sell, fadd b (fmul (quantity pos) p),
     {| in_position := false; buy_price := of_int 0; quantity := of_int 0 |},
     fsub (fmul (quantity pos) p) (fmul (quantity pos) (buy_price pos))) ∧
  (∀ self now finished data pred,
     predict self now data = Return pred →
     signal pred = sell →
     last (close <$> data) = Some p →
     ∃ ex, execute_strategy self now finished data b (Some pos) = Return ex ∧
           action ex = sell ∧
           balance ex = fadd b (fmul (quantity pos) p) ∧
           profit_loss ex =
             fsub (fmul (quantity pos) p) (fmul (quantity pos) (buy_price pos)) ∧
           position ex =
             {| in_position := false; buy_price := of_int 0;
                quantity := of_int 0 |}) ∧
  apply_signal (F:=PrimFloat.float) (literal 1) sell (literal 1) (literal 120)
      (literal 0)
      {| in_position := true; buy_price := literal 100; quantity := literal 10 |} =
    (sell, literal 1200,
     {| in_position := false; buy_price := literal 0; quantity := literal 0 |},
     literal 200).
Proof.
  intros Hlong. split; [by apply apply_signal_sell_long|]. split; [|by vm_compute].
  intros self now finished data pred Hpred Hsell Hpx.
  eexists. split.
  - apply execute_strategy_Return; [done..|].
    rewrite Hsell. by apply apply_signal_sell_long.
  - by cbn.
Qed.

(** C6. A step whose signal is [hold], or [sell] while FLAT, or [buy] while
    LONG reports the action [hold] and returns the balance and the whole
    position (held flag, entry price, quantity) as they were; the reported
    profit/loss is [(current_price - entry_price) * quantity] while LONG and
    0 otherwise. *)
Theorem hold_keeps_state (r : F) (sig : Signal) (c p b : F) pos :
  sig = hold ∨ (sig = sell ∧ in_position pos = false)
             ∨ (sig = buy ∧ in_position pos = true) →
  apply_signal r sig c p b pos =
    (hold, b, pos,
     if in_position pos then fmul (fsub p (buy_price pos)) (quantity pos)
     else of_int 0) ∧
  (∀ self now finished data start pred,
     predict self now data = Return pred →
     signal pred = sig →
     last (close <$> data) = Some p →
     default flat_position start = pos →
     ∃ ex, execute_strategy self now finished data b start = Return ex ∧
           action ex = hold ∧
           balance ex = b ∧
           position ex = pos ∧
           in_position (position ex) = in_position pos ∧
           buy_price (position ex) = buy_price pos ∧
           quantity (position ex) = quantity pos ∧
           profit_loss ex =
             if in_position pos then fmul (fsub p (buy_price pos)) (quantity pos)
             else of_int 0).
Proof.
  intros Hsig. split; [by apply apply_signal_hold|].
  intros self now finished data start pred Hpred <- Hpx Hstart.
  eexists. split.
  - apply execute_strategy_Return; [done..|].
    rewrite Hstart. by apply apply_signal_hold.
  - by cbn.
Qed.

End StateMachine.

(** ** The backtest of [evaluate] *)

Section Backtest.
Context {F : Type} {num : Number F} {f32 : Float32 F} {ext : Collaborators F}.
Implicit Types (data : DataFrame F) (self : AIAgent F) (y_pred : list Z).
Implicit Types (pos : option (Position F)) (trades : list (Trade F)) (bal : F).

(** The loop only appends, and what it appends alternates, starting with the
    action the position allows. *)
Lemma trading_loop_ledger data y_pred (i : nat) bal pos trades bal' pos' trades' :
  trading_loop data y_pred i bal pos trades = Return (bal', pos', trades') →
  ∃ new, trades' = trades ++ new ∧ alternates_from (expected_next pos) new ∧
         Forall (λ t, trade_action t = sell → is_Some (trade_profit_loss t)) new.
Proof.
  revert i bal pos trades.
  induction y_pred as [|p rest IH]; intros i bal pos trades; cbn.
  - intros [= <- <- <-]. exists []. by rewrite app_nil_r.
  - destruct (py_index (close <$> data) _) as [px|e]; cbn;
      [|intros Heq; discriminate Heq].
    unfold expected_next.
    destruct (fgt (of_int p) _); destruct (is_flat pos) eqn:Hflat.
    + destruct (py_index (timestamp <$> data) _) as [ts|e]; cbn;
        [|intros Heq; discriminate Heq].
      intros (new & -> & Hnew & Hpl)%IH. eexists (_ :: new).
      rewrite <-app_assoc. repeat split; [done|].
      constructor; [intros Hsell; discriminate Hsell|done].
    + intros (new & -> & Hnew & Hpl)%IH. exists new.
      unfold expected_next in Hnew. by rewrite Hflat in Hnew.
    + intros (new & -> & Hnew & Hpl)%IH. exists new.
      unfold expected_next in Hnew. by rewrite Hflat in Hnew.
    + destruct pos as [held|]; [|discriminate Hflat].
      destruct (py_index (timestamp <$> data) _) as [ts|e]; cbn;
        [|intros Heq; discriminate Heq].
      intros (new & -> & Hnew & Hpl)%IH. eexists (_ :: new).
      rewrite <-app_assoc. repeat split; [done|].
      constructor; [by eexists|done].
Qed.

(** The loop returns as long as the table has a row for every step. *)
Lemma trading_loop_returns data y_pred (i : nat) bal pos trades :
  i + length y_pred + 60 ≤ length data →
  ∃ run, trading_loop data y_pred i bal pos trades = Return run.
Proof.
  revert i bal pos trades.
  induction y_pred as [|p rest IH]; intros i bal pos trades Hlen; cbn in *.
  - by eexists.
  - destruct (py_index_in_range (close <$> data) (Z.of_nat i + 60)) as [px ->];
      [rewrite length_fmap; lia|].
    destruct (py_index_in_range (timestamp <$> data) (Z.of_nat i + 60)) as [ts Hts];
      [rewrite length_fmap; lia|].
    cbn. destruct (fgt (of_int p) _), (is_flat pos), pos as [held|];
      rewrite ?Hts; cbn; apply IH; lia.
Qed.

Lemma final_balance_returns data bal pos :
  data ≠ [] → ∃ bal', final_balance data bal pos = Return bal'.
Proof.
  intros Hdata. unfold final_balance.
  destruct pos as [held|]; [|by eexists].
  destruct (in_position held); [|by eexists].
  destruct (py_index_in_range (close <$> data) (-1)) as [px ->]; [|by eexists].
  rewrite length_fmap. destruct data; [done|cbn; lia].
Qed.

(** A trained agent backtests every table of more than 60 rows, one
    predicted class per window. *)
Lemma backtest_returns self data (m : Model F) :
  trained self = true → model self = Some m → 60 < length data →
  ∃ y_true y_pred run,
    backtest self data = Return (y_true, y_pred, run) ∧
    simulate_trading data y_pred = Return run ∧
    length y_pred = length data - 60.
Proof.
  intros Htrained Hmodel Hlen. unfold backtest. rewrite Htrained, Hmodel.
  destruct (preprocess_data_returns data 60) as (scaled & y & _ & _ & -> & _).
  { intros ->. cbn in Hlen. lia. }
  cbn. rewrite length_fmap, length_seq.
  destruct (decide (length data - 60 = 0)) as [Hshort|_]; [lia|].
  set (y_pred := predicted_classes m _).
  assert (length y_pred = length data - 60) as Hpred.
  { subst y_pred. unfold predicted_classes, model_inputs.
    destruct (decide (strategy_type self = "lstm"));
      by rewrite !length_fmap, length_seq. }
  destruct (trading_loop_returns data y_pred 0 (literal (10000#1)) None [])
    as [run Hrun]; [lia|].
  unfold simulate_trading. rewrite Hrun. cbn. by exists y, y_pred, run.
Qed.

(** [evaluate] is [backtest], the final valuation and the metrics dictionary. *)
Lemma evaluate_Return self data y_true y_pred bal pos trades bal' :
  backtest self data = Return (y_true, y_pred, (bal, pos, trades)) →
  final_balance data bal pos = Return bal' →
  ∃ self',
    evaluate self data = Return (self', metrics_dict y_true y_pred bal' trades) ∧
    performance_metrics self' = metrics_dict y_true y_pred bal' trades.
Proof.
  intros Hrun Hbal. unfold evaluate. rewrite Hrun. cbn. rewrite Hbal. cbn.
  by eexists.
Qed.

Lemma evaluate_Return_inv self data self' (metrics : gmap string F) :
  evaluate self data = Return (self', metrics) →
  ∃ y_true y_pred bal pos trades bal',
    backtest self data = Return (y_true, y_pred, (bal, pos, trades)) ∧
    final_balance data bal pos = Return bal' ∧
    metrics = metrics_dict y_true y_pred bal' trades ∧
    self' = {| agent_id := agent_id self; name := name self;
               strategy_type := strategy_type self;
               risk_level := risk_level self; metadata := metadata self;
               model := model self; trained := trained self;
               performance_metrics := metrics |}.
Proof.
  unfold evaluate.
  destruct (backtest self data) as [[[y_true y_pred] [[bal pos] trades]]|e]
    eqn:Hrun; cbn; [|done].
  destruct (final_balance data bal pos) as [bal'|e] eqn:Hbal; cbn; [|done].
  intros [= <- <-]. by exists y_true, y_pred, bal, pos, trades, bal'.
Qed.

Lemma metrics_dict_lookup y_true y_pred bal trades :
  metrics_dict y_true y_pred bal trades !! "final_balance" = Some bal ∧
  metrics_dict y_true y_pred bal trades !! "profit_loss"
    = Some (fsub bal (literal (10000#1))) ∧
  metrics_dict y_true y_pred bal trades !! "win_rate" = Some (win_rate trades) ∧
  metrics_dict y_true y_pred bal trades !! "num_trades"
    = Some (of_int (Z.of_nat (length (sell_trades trades)))).
Proof. unfold metrics_dict. by repeat split. Qed.

Lemma alternates_from_adjacent (s : Signal) trades (i : nat) (t t' : Trade F) :
  s ≠ hold → alternates_from s trades →
  trades !! i = Some t → trades !! S i = Some t' →
  trade_action t ≠ trade_action t'.
Proof.
  revert s i. induction trades as [|t0 rest IH]; intros s i Hs Halt; [done|].
  destruct Halt as [Ht0 Hrest]. destruct i as [|i]; cbn.
  - intros [= <-] Hnext. destruct rest as [|t1 rest']; [done|].
    destruct Hrest as [Ht1 _]. cbn in Hnext. injection Hnext as <-.
    rewrite Ht0, Ht1. by destruct s.
  - apply (IH (other_action s)); [by destruct s|done].
Qed.

Lemma alternates_from_counts (s : Signal) trades :
  alternates_from s trades →
  (s = buy →
   length (buy_trades trades) = length (sell_trades trades) ∨
   length (buy_trades trades) = S (length (sell_trades trades))) ∧
  (s = sell →
   length (sell_trades trades) = length (buy_trades trades) ∨
   length (sell_trades trades) = S (length (buy_trades trades))).
Proof.
  revert s. induction trades as [|t rest IH]; intros s Halt.
  - split; intros _; by left.
  - destruct Halt as [Ht Hrest]. destruct (IH _ Hrest) as [IHbuy IHsell].
    unfold buy_trades, sell_trades in *.
    split; intros ->; cbn in IHbuy, IHsell; rewrite !filter_cons;
      destruct (decide (trade_action t = buy)), (decide (trade_action t = sell));
      try congruence; cbn.
    + destruct (IHsell eq_refl) as [->| ->]; [by right|by left].
    + destruct (IHbuy eq_refl) as [->| ->]; [by right|by left].
Qed.

Lemma alternates_from_buy trades :
  alternates_from buy trades → strictly_alternating trades.
Proof.
  intros Halt. split; [|split].
  - destruct trades as [|t0 rest]; [done|]. intros t [= <-]. by destruct Halt.
  - intros i t t'. by apply (alternates_from_adjacent buy).
  - by apply (alternates_from_counts buy).
Qed.

(** Every replay from no position leaves a strictly alternating ledger
    whose sell records all carry a realized profit/loss. *)
Lemma simulate_trading_ledger data y_pred bal pos trades :
  simulate_trading data y_pred = Return (bal, pos, trades) →
  strictly_alternating trades ∧
  Forall (λ t, trade_action t = sell → is_Some (trade_profit_loss t)) trades.
Proof.
  intros (new & -> & Halt & Hpl)%trading_loop_ledger.
  split; [by apply alternates_from_buy|done].
Qed.

End Backtest.

Section BacktestClaims.
Context {F : Type} {num : Number F} {f32 : Float32 F} {ext : Collaborators F}.
Implicit Types (data : DataFrame F) (self : AIAgent F).

(** What a completed [evaluate] consists of. *)
Lemma evaluate_returns self data (m : Model F) :
  trained self = true → model self = Some m → 60 < length data →
  ∃ y_true y_pred bal pos trades bal' self',
    backtest self data = Return (y_true, y_pred, (bal, pos, trades)) ∧
    simulate_trading data y_pred = Return (bal, pos, trades) ∧
    final_balance data bal pos = Return bal' ∧
    evaluate self data = Return (self', metrics_dict y_true y_pred bal' trades) ∧
    performance_metrics self' = metrics_dict y_true y_pred bal' trades.
Proof.
  intros Htrained Hmodel Hlen.
  destruct (backtest_returns self data m Htrained Hmodel Hlen)
    as (y_true & y_pred & [[bal pos] trades] & Hrun & Hsim & _).
  destruct (final_balance_returns data bal pos) as [bal' Hbal].
  { intros ->. cbn in Hlen. lia. }
  destruct (evaluate_Return self data _ _ _ _ _ _ Hrun Hbal) as (self' & Hev & Hpm).
  by exists y_true, y_pred, bal, pos, trades, bal', self'.
Qed.

(** C7. A backtest that ends while holding a position reports as final
    balance the held quantity times the last close of the table, and as
    profit/loss that balance minus the initial 10000.0; a backtest that ends
    flat reports the cash balance. *)
Theorem evaluate_marks_to_market self data (m : Model F) :
  trained self = true → model self = Some m → 60 < length data →
  ∃ y_true y_pred bal pos trades self' metrics,
    backtest self data = Return (y_true, y_pred, (bal, pos, trades)) ∧
    evaluate self data = Return (self', metrics) ∧
    performance_metrics self' = metrics ∧
    (∀ held, pos = Some held → in_position held = true →
       ∃ final_price,
         last (close <$> data) = Some final_price ∧
         metrics !! "final_balance" = Some (fmul (quantity held) final_price) ∧
         metrics !! "profit_loss"
           = Some (fsub (fmul (quantity held) final_price) (literal (10000#1)))) ∧
    (is_flat pos = true →
       metrics !! "final_balance" = Some bal ∧
       metrics !! "profit_loss" = Some (fsub bal (literal (10000#1)))).
Proof.
  intros Htrained Hmodel Hlen.
  destruct (evaluate_returns self data m Htrained Hmodel Hlen)
    as (y_true & y_pred & bal & pos & trades & bal' & self'
        & Hrun & _ & Hbal & Hev & Hpm).
  exists y_true, y_pred, bal, pos, trades, self', (metrics_dict y_true y_pred bal' trades).
  destruct (metrics_dict_lookup y_true y_pred bal' trades) as (Hfb & Hpl & _).
  split; [done|]. split; [done|]. split; [done|]. split.
  - intros held -> Hheld. unfold final_balance in Hbal. rewrite Hheld in Hbal.
    destruct (py_index (close <$> data) (-1)) as [final_price|e] eqn:Hlast;
      [|discriminate Hbal].
    cbn in Hbal. injection Hbal as <-. exists final_price.
    by split; [apply py_index_last|].
  - intros Hflat. unfold final_balance in Hbal.
    destruct pos as [held|]; cbn in Hflat;
      [apply negb_true_iff in Hflat; rewrite Hflat in Hbal|];
      by injection Hbal as <-.
Qed.

(** C8. [num_trades] is the number of sell records of the ledger;
    [win_rate] is the number of sell records with a realized profit/loss
    above 0 divided by the number of sell records when there is one, and 0
    otherwise, in which case [evaluate] still returns; in binary64 that 0 is
    the float zero, which compares equal to itself (no NaN). *)
Theorem evaluate_win_rate self data (m : Model F) :
  trained self = true → model self = Some m → 60 < length data →
  ∃ y_true y_pred bal pos trades self' metrics,
    backtest self data = Return (y_true, y_pred, (bal, pos, trades)) ∧
    evaluate self data = Return (self', metrics) ∧
    (∀ t, t ∈ sell_trades trades ↔ t ∈ trades ∧ trade_action t = sell) ∧
    (∀ t, t ∈ winning_trades trades ↔
          t ∈ trades ∧ trade_action t = sell ∧
          ∃ pl, trade_profit_loss t = Some pl ∧ fgt pl (of_int 0) = true) ∧
    metrics !! "num_trades" = Some (of_int (Z.of_nat (length (sell_trades trades)))) ∧
    (0 < length (sell_trades trades) →
       metrics !! "win_rate" =
         Some (fdiv (of_int (Z.of_nat (length (winning_trades trades))))
                    (of_int (Z.of_nat (length (sell_trades trades)))))) ∧
    (length (sell_trades trades) = 0 → metrics !! "win_rate" = Some (of_int 0)) ∧
    PrimFloat.eqb (of_int 0) (of_int 0) = true.
Proof.
  intros Htrained Hmodel Hlen.
  destruct (evaluate_returns self data m Htrained Hmodel Hlen)
    as (y_true & y_pred & bal & pos & trades & bal' & self'
        & Hrun & Hsim & _ & Hev & _).
  exists y_true, y_pred, bal, pos, trades, self', (metrics_dict y_true y_pred bal' trades).
  destruct (metrics_dict_lookup y_true y_pred bal' trades) as (_ & _ & Hwr & Hnt).
  destruct (simulate_trading_ledger _ _ _ _ _ Hsim) as [_ Hpl].
  split; [done|]. split; [done|]. split; [|split; [|split; [done|]]].
  - intros t. unfold sell_trades. rewrite list_elem_of_filter. by split; intros [? ?].
  - intros t. unfold winning_trades. rewrite list_elem_of_filter. split.
    + intros [[Hsell Hgt] Hin]. split; [done|]. split; [done|].
      rewrite Forall_forall in Hpl. destruct (Hpl t Hin Hsell) as [pl Hsome].
      exists pl. rewrite Hsome in Hgt. by split.
    + intros (Hin & Hsell & pl & Hsome & Hgt). by rewrite Hsome.
  - rewrite Hwr. unfold win_rate. split; [|split; [|done]].
    + intros Hsome. by destruct (decide (0 < length (sell_trades trades))).
    + intros Hnone. destruct (decide (0 < length (sell_trades trades))); [lia|done].
Qed.

(** C10. The ledger of a backtest strictly alternates: its first record, if
    any, is a buy, no two neighbouring records have the same action, and the
    buys outnumber the sells by 0 or 1; the same holds for the replay of any
    series of predicted classes. *)
Theorem backtest_ledger_alternates self data (m : Model F) :
  trained self = true → model self = Some m → 60 < length data →
  (∃ y_true y_pred bal pos trades,
     backtest self data = Return (y_true, y_pred, (bal, pos, trades)) ∧
     (∀ t, head trades = Some t → trade_action t = buy) ∧
     (∀ i t t', trades !! i = Some t → trades !! S i = Some t' →
                trade_action t ≠ trade_action t') ∧
     (length (buy_trades trades) = length (sell_trades trades) ∨
      length (buy_trades trades) = S (length (sell_trades trades)))) ∧
  (∀ y_pred bal pos trades,
     simulate_trading data y_pred = Return (bal, pos, trades) →
     strictly_alternating trades).
Proof.
  intros Htrained Hmodel Hlen. split.
  - destruct (backtest_returns self data m Htrained Hmodel Hlen)
      as (y_true & y_pred & [[bal pos] trades] & Hrun & Hsim & _).
    exists y_true, y_pred, bal, pos, trades. split; [done|].
    by apply simulate_trading_ledger in Hsim as [Halt _].
  - intros y_pred bal pos trades Hsim.
    by apply simulate_trading_ledger in Hsim as [Halt _].
Qed.

End BacktestClaims.


(** ** The agent record *)

Section AgentRecord.
Context {F : Type} {num : Number F} {f32 : Float32 F} {ext : Collaborators F}.
Implicit Types (self : AIAgent F) (disk : Disk F) (data : AgentDict F).

Lemma from_dict_untrained (clock : Z) disk self :
  agent_id self ≠ "" → trained self = false →
  same_record (from_dict clock disk (to_dict self)) self.
Proof.
  intros Hid Huntrained. unfold from_dict, to_dict, init. cbn.
  rewrite Huntrained. cbn.
  destruct (decide (agent_id self = "")); [done|]. by repeat split.
Qed.

Lemma from_dict_no_model_file (clock : Z) disk self :
  agent_id self ≠ "" →
  model_file disk !! model_path disk (agent_id self) = None →
  same_record (from_dict clock disk (to_dict self)) self.
Proof.
  intros Hid Hfile. destruct (trained self) eqn:Htrained;
    [|by apply from_dict_untrained].
  unfold from_dict, to_dict, init, load_model. cbn. rewrite Htrained. cbn.
  destruct (decide (agent_id self = "")); [done|].
  rewrite Hfile. by repeat split.
Qed.

Lemma from_dict_no_metadata_file (clock : Z) disk self :
  agent_id self ≠ "" →
  metadata_file disk !! metadata_path disk (agent_id self) = None →
  same_record (from_dict clock disk (to_dict self)) self.
Proof.
  intros Hid Hfile. destruct (trained self) eqn:Htrained;
    [|by apply from_dict_untrained].
  unfold from_dict, to_dict, init, load_model. cbn. rewrite Htrained. cbn.
  destruct (decide (agent_id self = "")); [done|].
  rewrite Hfile. destruct (model_file disk !! _); by repeat split.
Qed.

Lemma from_dict_after_save (clock : Z) (now : string) disk0 disk self :
  agent_id self ≠ "" → save_model self now disk0 = (true, disk) →
  same_record (from_dict clock disk (to_dict self)) self.
Proof.
  intros Hid Hsave. destruct (trained self) eqn:Htrained;
    [|by apply from_dict_untrained].
  unfold save_model in Hsave. destruct (model self) as [m|]; [|done].
  injection Hsave as <-.
  unfold from_dict, to_dict, init, load_model. cbn. rewrite Htrained. cbn.
  destruct (decide (agent_id self = "")); [done|].
  unfold model_path, metadata_path, model_dir. cbn.
  rewrite !lookup_insert_eq. cbn. by repeat split.
Qed.

(** What [from_dict] makes of a trained agent whose model directory holds a
    model and a metadata file: the stored fields win. *)
Lemma from_dict_reloads (clock : Z) disk self (m : Model F) (md : AgentDict F) :
  agent_id self ≠ "" → trained self = true →
  model_file disk !! model_path disk (agent_id self) = Some m →
  metadata_file disk !! metadata_path disk (agent_id self) = Some md →
  from_dict clock disk (to_dict self) =
    {| agent_id := agent_id self;
       name := default (name self) (d_name md);
       strategy_type := default (strategy_type self) (d_strategy_type md);
       risk_level := default (risk_level self) (d_risk_level md);
       metadata := default ∅ (d_metadata md);
       model := Some m;
       trained := default false (d_trained md);
       performance_metrics :=
         default (performance_metrics self) (d_performance_metrics md) |}.
Proof.
  intros Hid Htrained Hmodel Hmeta.
  unfold from_dict, to_dict, init, load_model. cbn. rewrite Htrained. cbn.
  destruct (decide (agent_id self = "")); [done|].
  by rewrite Hmodel, Hmeta.
Qed.

(** C9, as the code has it. For an agent with a non-empty id,
    [from_dict (to_dict a)] preserves the agent id, name, strategy type,
    risk level, trained flag, performance metrics and metadata when the
    agent is untrained, or its model directory holds no model file, or no
    metadata file, or the files last written by [save_model] for the agent
    as it is now. For a trained agent whose model directory holds a model
    file and a metadata file, whatever they contain, [from_dict] loads them:
    the id is kept, the model is the stored one, and the name, strategy
    type, risk level, trained flag, performance metrics and metadata are
    those of the metadata file (a key missing there gives the agent's own
    name, strategy type, risk level and performance metrics, [False] for the
    flag and an empty metadata map). *)
Theorem from_dict_to_dict (clock : Z) disk self :
  agent_id self ≠ "" →
  (trained self = false ∨
   model_file disk !! model_path disk (agent_id self) = None ∨
   metadata_file disk !! metadata_path disk (agent_id self) = None ∨
   (∃ now disk0, save_model self now disk0 = (true, disk)) →
   same_record (from_dict clock disk (to_dict self)) self) ∧
  (∀ (m : Model F) (md : AgentDict F),
     trained self = true →
     model_file disk !! model_path disk (agent_id self) = Some m →
     metadata_file disk !! metadata_path disk (agent_id self) = Some md →
     from_dict clock disk (to_dict self) =
       {| agent_id := agent_id self;
          name := default (name self) (d_name md);
          strategy_type := default (strategy_type self) (d_strategy_type md);
          risk_level := default (risk_level self) (d_risk_level md);
          metadata := default ∅ (d_metadata md);
          model := Some m;
          trained := default false (d_trained md);
          performance_metrics :=
            default (performance_metrics self) (d_performance_metrics md) |}).
Proof.
  intros Hid. split.
  - intros [Huntrained|[Hfile|[Hfile|(now & disk0 & Hsave)]]].
    + by apply from_dict_untrained.
    + by apply from_dict_no_model_file.
    + by apply from_dict_no_metadata_file.
    + by apply (from_dict_after_save clock now disk0).
  - intros m md. by apply from_dict_reloads.
Qed.

End AgentRecord.

(** ** Runs in binary64 and binary32 *)

Module Binary64Literals.
Import PrimFloat.
#[local] Set Warnings "-inexact-float".

(** The decimal literals of the source are the doubles Python reads. *)
Example float_literals :
  literal (1#2) = 0.5%float ∧ literal (1#10) = 0.1%float ∧
  literal (55#100) = 0.55%float ∧ literal (551#1000) = 0.551%float ∧
  literal 10000 = 10000%float ∧ of_int 0 = 0%float.
Proof. by vm_compute. Qed.

(** The threshold [0.5 + 0.1 * 0.5] is the double 0.55; cast to binary32 it
    is the probability [numpy.float32(0.55)], which therefore holds; the
    confidences are binary32 values read back as doubles. *)
Example float32_literals :
  fadd (literal (1#2)) (fmul (literal (1#10)) (literal (1#2))) = 0.55%float ∧
  widen (weak 0.55%float) = 0.550000011920928955078125%float ∧
  widen (weak 0.551%float) = 0.550999999046325683593750%float ∧
  prediction_confidence (weak 0.55%float) = 0.100000023841857910156250%float ∧
  prediction_confidence (weak 0.96%float) = 0.919999957084655761718750%float ∧
  prediction_confidence (weak 0.5%float) = 0%float.
Proof. by vm_compute. Qed.

End Binary64Literals.

Section Binary64.
#[local] Abbreviation float := PrimFloat.float.
#[local] Abbreviation table := (bars (F:=float)).

Lemma length_bars {F : Type} {num : Number F} (closes : nat → Q) (n : nat) :
  length (bars (F:=F) closes n) = n.
Proof. unfold bars. by rewrite length_fmap, length_seq. Qed.


(** C3 does not hold of the code: a trained agent with risk level 1.0 whose
    model answers 1.0 gets a table whose last close is -100; acting from no
    position with a balance of 1000, [execute_strategy] does not raise: it
    buys and divides by the negative price (quantity -10). *)
Lemma execute_strategy_negative_price :
  last (close <$> table (closes_ending_at (-100)) 61) = Some (literal (-100)) ∧
  fgt (literal (-100) : float) (of_int 0) = false ∧
  execute_strategy (fitted_agent 1 1) "2024-01-01T00:00:00" "2024-01-01T00:00:01"
      (table (closes_ending_at (-100)) 61) (literal 1000) None =
    Return {| exec_timestamp := "2024-01-01T00:00:01";
              action := buy;
              price := literal (-100);
              balance := literal 0;
              position := {| in_position := true; buy_price := literal (-100);
                             quantity := literal (-10) |};
              prediction := {| pred_timestamp := "2024-01-01T00:00:00";
                               signal := buy; confidence := literal 1;
                               raw_prediction := literal 1;
                               risk_adjusted := literal 1 |};
              profit_loss := of_int 0 |}.
Proof. by vm_compute. Qed.

(** The amended C3 at a last close of -50. *)
Lemma buy_at_nonpositive_price_witness :
  execute_strategy (fitted_agent 1 1) "2024-01-01T00:00:00" "2024-01-01T00:00:01"
      (table (closes_ending_at (-50)) 61) (literal 1000) None =
    Return {| exec_timestamp := "2024-01-01T00:00:01";
              action := buy;
              price := literal (-50);
              balance := literal 0;
              position := {| in_position := true; buy_price := literal (-50);
                             quantity := literal (-20) |};
              prediction := {| pred_timestamp := "2024-01-01T00:00:00";
                               signal := buy; confidence := literal 1;
                               raw_prediction := literal 1;
                               risk_adjusted := literal 1 |};
              profit_loss := of_int 0 |}.
Proof.
  rewrite (buy_at_nonpositive_price (fitted_agent 1 1) "2024-01-01T00:00:00"
             "2024-01-01T00:00:01"
             (table (closes_ending_at (-50)) 61) (literal 1000) None
             {| pred_timestamp := "2024-01-01T00:00:00"; signal := buy;
                confidence := literal 1; raw_prediction := literal 1;
                risk_adjusted := literal 1 |} (literal (-50)));
    by vm_compute.
Defined.

(** C4 at balance 1000, confidence 1.0, risk level 1.0 and price 100. *)
Lemma buy_from_flat_witness :
  apply_signal (F:=float) (literal 1) buy (literal 1) (literal 100) (literal 1000)
      flat_position =
    (buy, literal 0,
     {| in_position := true; buy_price := literal 100; quantity := literal 10 |},
     of_int 0).
Proof.
  exact (proj1 (buy_from_flat (F:=float) (literal 1) (literal 1) (literal 100)
                  (literal 1000) flat_position eq_refl eq_refl)).
Defined.

(** C5 at quantity 10, entry price 100, balance 0 and price 120. *)
Lemma sell_from_long_witness :
  apply_signal (F:=float) (literal 1) sell (literal 1) (literal 120) (literal 0)
      {| in_position := true; buy_price := literal 100; quantity := literal 10 |} =
    (sell, literal 1200,
     {| in_position := false; buy_price := of_int 0; quantity := of_int 0 |},
     literal 200).
Proof.
  exact (proj1 (sell_from_long (F:=float) (literal 1) (literal 1) (literal 120)
                  (literal 0)
                  {| in_position := true; buy_price := literal 100;
                     quantity := literal 10 |} eq_refl)).
Defined.

(** C6: a buy signal while LONG (10 units entered at 100, price now 120). *)
Lemma hold_keeps_state_witness :
  apply_signal (F:=float) (literal (1#2)) buy (literal 1) (literal 120) (literal 0)
      {| in_position := true; buy_price := literal 100; quantity := literal 10 |} =
    (hold, literal 0,
     {| in_position := true; buy_price := literal 100; quantity := literal 10 |},
     literal 200).
Proof.
  exact (proj1 (hold_keeps_state (F:=float) (literal (1#2)) buy (literal 1)
                  (literal 120) (literal 0)
                  {| in_position := true; buy_price := literal 100;
                     quantity := literal 10 |}
                  (or_intror (or_intror (conj eq_refl eq_refl))))).
Defined.

(** The zigzag table: the ledger is buy at 150, sell at 180, buy at 170, and
    the run ends holding. *)
Lemma zigzag_table_length : 60 < length (table zigzag_closes 63).
Proof. rewrite length_bars. lia. Defined.

Example zigzag_backtest :
  ∃ y_true bal held trades,
    backtest (F:=float) zigzag_agent (table zigzag_closes 63) =
      Return (y_true, [1; 0; 1]%Z, (bal, Some held, trades)) ∧
    in_position held = true ∧
    (λ t, (trade_action t, trade_price t)) <$> trades =
      [(buy, literal 150); (sell, literal 180); (buy, literal 170)].
Proof. eexists _, _, _, _. by vm_compute. Qed.

(** C7 on the zigzag table: the open position is valued at the last close
    170, for a final balance of 12000 and a profit of 2000. *)
Lemma evaluate_marks_to_market_witness :
  ∃ self' metrics,
    evaluate (F:=float) zigzag_agent (table zigzag_closes 63) = Return (self', metrics) ∧
    metrics !! "final_balance" = Some (literal 12000) ∧
    metrics !! "profit_loss" = Some (literal 2000).
Proof.
  destruct (evaluate_marks_to_market (F:=float) zigzag_agent (table zigzag_closes 63)
              first_close_model eq_refl eq_refl zigzag_table_length)
    as (y_true & y_pred & bal & pos & trades & self' & metrics
        & Hrun & Hev & _ & Hheld & _).
  vm_compute in Hrun. injection Hrun as <- <- <- <- <-.
  destruct (Hheld _ eq_refl eq_refl) as (final_price & Hlast & Hbal & Hpl).
  vm_compute in Hlast. injection Hlast as <-.
  exists self', metrics. split; [exact Hev|]. split.
  - rewrite Hbal. by vm_compute.
  - rewrite Hpl. by vm_compute.
Defined.

(** C8 on the zigzag table: one sell, and it wins. *)
Lemma evaluate_win_rate_witness :
  ∃ self' metrics,
    evaluate (F:=float) zigzag_agent (table zigzag_closes 63) = Return (self', metrics) ∧
    metrics !! "num_trades" = Some (literal 1) ∧
    metrics !! "win_rate" = Some (literal 1).
Proof.
  destruct (evaluate_win_rate (F:=float) zigzag_agent (table zigzag_closes 63)
              first_close_model eq_refl eq_refl zigzag_table_length)
    as (y_true & y_pred & bal & pos & trades & self' & metrics
        & Hrun & Hev & _ & _ & Hnum & Hrate & _).
  vm_compute in Hrun. injection Hrun as <- <- <- <- <-.
  exists self', metrics. split; [exact Hev|]. split.
  - rewrite Hnum. by vm_compute.
  - rewrite Hrate; [by vm_compute|]. vm_compute. lia.
Defined.

(** The win-rate guard: a model that always answers 1.0 buys once and never
    sells; [evaluate] returns, with [win_rate] and [num_trades] both 0. *)
Example evaluate_without_sells :
  ∃ self' metrics,
    evaluate (F:=float) (fitted_agent (1#2) 1) (table (closes_ending_at 160) 63)
      = Return (self', metrics) ∧
    metrics !! "win_rate" = Some (of_int 0) ∧
    metrics !! "num_trades" = Some (of_int 0).
Proof.
  destruct (evaluate_returns (F:=float) (fitted_agent (1#2) 1)
              (table (closes_ending_at 160) 63) (constant_model 1) eq_refl eq_refl)
    as (y_true & y_pred & bal & pos & trades & bal' & self' & Hrun & _ & _ & Hev & _);
    [rewrite length_bars; lia|].
  vm_compute in Hrun. injection Hrun as <- <- <- <- <-.
  eexists _, _. split; [exact Hev|]. split; by vm_compute.
Qed.

(** C10 on the zigzag table. *)
Lemma backtest_ledger_alternates_witness :
  ∃ trades,
    (∃ y_true y_pred bal pos,
       backtest (F:=float) zigzag_agent (table zigzag_closes 63) =
         Return (y_true, y_pred, (bal, pos, trades))) ∧
    trade_action <$> trades = [buy; sell; buy] ∧
    strictly_alternating trades.
Proof.
  destruct (backtest_ledger_alternates (F:=float) zigzag_agent
              (table zigzag_closes 63) first_close_model eq_refl eq_refl
              zigzag_table_length)
    as [(y_true & y_pred & bal & pos & trades & Hrun & Halt) _].
  exists trades. split; [by exists y_true, y_pred, bal, pos|]. split; [|exact Halt].
  vm_compute in Hrun. by injection Hrun as <- <- <- <- <-.
Defined.

(** C9 does not hold of the code: a trained agent is saved, then evaluated
    (which replaces its performance metrics in memory), then serialized and
    deserialized; [from_dict] loads the metadata file of the save, and the
    result has the performance metrics of the file (none) instead of those
    of the agent. *)
Lemma from_dict_after_evaluate_loses_metrics :
  ∃ evaluated metrics,
    evaluate (F:=float) zigzag_agent (table zigzag_closes 63)
      = Return (evaluated, metrics) ∧
    agent_id evaluated = "agent-2" ∧
    trained evaluated = true ∧
    performance_metrics evaluated !! "final_balance" = Some (literal 12000) ∧
    performance_metrics
      (from_dict 1700000100
         (save_model (zigzag_agent (F:=float)) "2024-01-01T00:00:00" empty_disk).2
         (to_dict evaluated)) !! "final_balance" = None ∧
    ¬ same_record
        (from_dict 1700000100
           (save_model (zigzag_agent (F:=float)) "2024-01-01T00:00:00" empty_disk).2
           (to_dict evaluated))
        evaluated.
Proof.
  destruct (evaluate_returns (F:=float) zigzag_agent (table zigzag_closes 63)
              first_close_model eq_refl eq_refl zigzag_table_length)
    as (y_true & y_pred & bal & pos & trades & bal' & self' & Hrun & _ & Hbal & Hev & _).
  destruct (evaluate_Return_inv _ _ _ _ Hev)
    as (y_true' & y_pred' & bal0 & pos' & trades' & bal'' & Hrun' & Hbal' & _ & ->).
  rewrite Hrun in Hrun'. injection Hrun' as <- <- <- <- <-.
  rewrite Hbal in Hbal'. injection Hbal' as <-.
  vm_compute in Hrun. injection Hrun as <- <- <- <- <-.
  vm_compute in Hbal. injection Hbal as <-.
  eexists _, _. split; [exact Hev|].
  split; [done|]. split; [done|]. split; [by vm_compute|]. split; [by vm_compute|].
  intros (_ & _ & _ & _ & _ & Hmetrics & _).
  apply (f_equal (λ pm : gmap string float, pm !! "final_balance")) in Hmetrics.
  vm_compute in Hmetrics. discriminate Hmetrics.
Qed.

(** The amended C9 at a fresh, untrained agent. *)
Lemma from_dict_to_dict_witness :
  same_record (from_dict 1700000100 empty_disk (to_dict (fresh_agent (F:=float))))
              fresh_agent.
Proof.
  refine (proj1 (from_dict_to_dict (F:=float) 1700000100 empty_disk fresh_agent _)
                (or_introl eq_refl)).
  by vm_compute.
Defined.

End Binary64.

(** * Further properties of the engine *)

(** ** [preprocess_data] does not depend on the order of the rows *)

Section RowOrder.
Context {F : Type} {num : Number F} {f32 : Float32 F} {ext : Collaborators F}.
Implicit Types (data : DataFrame F) (b : Bar F).

Lemma distinct_timestamps data (a b : Bar F) :
  NoDup (timestamp <$> data) → a ∈ data → b ∈ data →
  timestamp a = timestamp b → a = b.
Proof.
  intros Hnodup [i Hi]%list_elem_of_lookup [j Hj]%list_elem_of_lookup Heq.
  assert (i = j) as ->.
  { apply (NoDup_lookup _ i j (timestamp a) Hnodup);
      rewrite list_lookup_fmap; [by rewrite Hi|by rewrite Hj, Heq]. }
  congruence.
Qed.

Lemma sort_values_of_Permutation data data' :
  NoDup (timestamp <$> data) → data ≡ₚ data' →
  sort_values data' = sort_values data.
Proof.
  intros Hnodup Hperm.
  apply (StronglySorted_unique_strong earlier); [|apply sort_values_sorted..|].
  - intros a b Ha Hb Hab Hba. apply (distinct_timestamps data); [done|..].
    + by rewrite sort_values_Permutation, <-Hperm in Ha.
    + by rewrite sort_values_Permutation in Hb.
    + unfold earlier in *. lia.
  - by rewrite !sort_values_Permutation.
Qed.

(** X1. On a table whose timestamps are pairwise distinct, the windows and
    labels do not depend on the order in which the rows are given. *)
Theorem preprocess_data_row_order data data' (L : nat) :
  NoDup (timestamp <$> data) → data ≡ₚ data' →
  preprocess_data data' L = preprocess_data data L.
Proof.
  intros Hnodup Hperm. unfold preprocess_data.
  by rewrite (sort_values_of_Permutation data data').
Qed.

Lemma sorted_lookup_lt data (i j : nat) (a b : Bar F) :
  StronglySorted earlier data → i < j →
  data !! i = Some a → data !! j = Some b → earlier a b.
Proof.
  intros Hsorted. revert i j.
  induction Hsorted as [|c l _ IH Hc]; intros i j Hij Ha Hb; [done|].
  destruct j as [|j]; [lia|]. cbn in Hb. destruct i as [|i]; cbn in Ha.
  - injection Ha as <-. rewrite Forall_forall in Hc.
    apply Hc. by eapply list_elem_of_lookup_2.
  - apply (IH i j); [lia|done..].
Qed.

(** The table the windows are cut from is in non-decreasing timestamp
    order and has exactly the rows of the given table. *)
Lemma sort_values_ascending data :
  sort_values data ≡ₚ data ∧
  ∀ (i j : nat) (a b : Bar F),
    i ≤ j → sort_values data !! i = Some a → sort_values data !! j = Some b →
    (timestamp a ≤ timestamp b)%Z.
Proof.
  split; [apply sort_values_Permutation|].
  intros i j a b Hij Ha Hb. destruct (decide (i = j)) as [->|Hne].
  - rewrite Ha in Hb. injection Hb as <-. lia.
  - apply (sorted_lookup_lt (sort_values data) i j);
      [apply sort_values_sorted|lia|done..].
Qed.

End RowOrder.

(** ** What [predict] and [execute_strategy] return, and when they raise *)

Section Outcomes.
Context {F : Type} {num : Number F} {f32 : Float32 F} {ext : Collaborators F}.
Implicit Types (data : DataFrame F) (self : AIAgent F) (e : PyError).

Lemma last_seq (n : nat) : last (seq 0 (S n)) = Some n.
Proof. rewrite last_lookup, length_seq. cbn [pred]. by rewrite lookup_seq_lt by lia. Qed.

(** X2. On more than 60 rows a trained agent's prediction is the model's
    answer on the last window only, and that window is rows [N-61, N-1) of
    the scaled table, which is the table as pandas has sorted it by
    timestamp: the newest row is in no window. The LSTM is fed the window as
    a sequence, any other strategy the flattened window. *)
Theorem predict_latest_window self now data (m : Model F) :
  trained self = true → model self = Some m → 60 < length data →
  ∃ scaled res,
    fit_transform (ohlcv_values (sort_values data)) = Return scaled ∧
    length scaled = length data ∧
    predict self now data = Return res ∧
    raw_prediction res =
      widen (m (let w := take 60 (drop (length data - 61) scaled) in
                if decide (strategy_type self = "lstm") then Sequence w
                else Flat (concat w))) ∧
    (∀ j, j < 60 →
       take 60 (drop (length data - 61) scaled) !! j = scaled !! (length data - 61 + j)).
Proof.
  intros Htrained Hmodel Hlen. unfold predict. rewrite Htrained, Hmodel.
  destruct (preprocess_data_returns data 60) as (scaled & y & Hscaled & Hshape & -> & _).
  { intros ->. cbn in Hlen. lia. }
  cbn. rewrite length_fmap, length_seq.
  destruct (decide (length data - 60 = 0)) as [Hshort|_]; [lia|].
  replace (length data - 60) with (S (length data - 61)) by lia.
  set (window := λ i, take 60 (drop i scaled)).
  assert (py_index (m <$> model_inputs (strategy_type self)
                     (window <$> seq 0 (S (length data - 61)))) (-1)
          = Return (m (if decide (strategy_type self = "lstm")
                       then Sequence (window (length data - 61))
                       else Flat (concat (window (length data - 61))))))
    as ->.
  { apply py_index_last. unfold model_inputs.
    destruct (decide (strategy_type self = "lstm"));
      by rewrite !fmap_last, last_seq. }
  cbn. exists scaled. eexists. split; [done|]. split; [done|].
  split; [done|]. split; [done|].
  intros j Hj. by rewrite lookup_take_lt, lookup_drop.
Qed.




End Outcomes.

(** ** The position dictionary of the live step *)

Section PositionShape.
Context {F : Type} {num : Number F} {f32 : Float32 F} {ext : Collaborators F}.
Implicit Types (pos : Position F) (self : AIAgent F).

(** A position that is not held carries no entry price and no quantity. *)
Definition position_valid pos : Prop :=
  in_position pos = false → buy_price pos = of_int 0 ∧ quantity pos = of_int 0.

(** X7. The live step keeps the shape of the position dictionary: whenever
    the position handed in is not held only with a zero entry price and
    quantity (as the default one is), so is the position handed back, after
    every signal; and a position is FLAT again after any step exactly when
    it equals that default. *)
Theorem execute_strategy_keeps_position_valid self now finished data (b : F)
    (start : option (Position F)) ex :
  position_valid (default flat_position start) →
  execute_strategy self now finished data b start = Return ex →
  position_valid (position ex) ∧
  (in_position (position ex) = false ↔ position ex = flat_position) ∧
  (action ex = buy → in_position (position ex) = true) ∧
  (action ex = sell → position ex = flat_position).
Proof.
  intros Hvalid. unfold execute_strategy.
  destruct (predict self now data) as [pred|e]; cbn; [|done].
  destruct (py_index (close <$> data) (-1)) as [px|e]; cbn; [|done].
  unfold apply_signal, position_valid in *.
  destruct (default flat_position start) as [held entry qty]. cbn in *.
  destruct (signal pred), held; intros [= <-]; cbn;
    try (destruct (Hvalid eq_refl) as [-> ->]); by repeat split.
Qed.

End PositionShape.

(** ** The state and the ledger of the backtest loop *)

Section BacktestState.
Context {F : Type} {num : Number F} {f32 : Float32 F} {ext : Collaborators F}.
Implicit Types (data : DataFrame F) (y_pred : list Z) (bal : F).
Implicit Types (pos : option (Position F)) (trades : list (Trade F)).

Lemma trading_loop_state data y_pred (i : nat) bal pos trades bal' pos' trades' :
  ledger_matches bal pos trades →
  trading_loop data y_pred i bal pos trades = Return (bal', pos', trades') →
  ledger_matches bal' pos' trades'.
Proof.
  revert i bal pos trades.
  induction y_pred as [|p rest IH]; intros i bal pos trades Hinv; cbn.
  - by intros [= <- <- <-].
  - destruct (py_index (close <$> data) _) as [px|e]; cbn;
      [|intros Heq; discriminate Heq].
    destruct (fgt (of_int p) _); destruct (is_flat pos) eqn:Hflat;
      [|by apply IH|by apply IH|].
    + destruct (py_index (timestamp <$> data) _) as [ts|e]; cbn;
        [|intros Heq; discriminate Heq].
      apply IH. cbn. eexists. by rewrite last_snoc.
    + destruct pos as [held|]; [|discriminate Hflat].
      destruct (py_index (timestamp <$> data) _) as [ts|e]; cbn;
        [|intros Heq; discriminate Heq].
      apply IH. cbn. eexists. by rewrite last_snoc.
Qed.

(** X8. However the replay goes, the state it ends in matches its ledger:
    there is no position exactly when nothing was traded; it ends holding
    exactly when the last record is a buy, and then the cash is 0 and the
    entry price is the price of that record; otherwise the last record is a
    sell, the cash is the held quantity times its price, and its realized
    profit/loss is (price - entry price) * quantity. *)
Theorem simulate_trading_final_state data y_pred bal pos trades :
  simulate_trading data y_pred = Return (bal, pos, trades) →
  (pos = None ↔ trades = []) ∧
  (is_flat pos = false ↔ ∃ t, last trades = Some t ∧ trade_action t = buy) ∧
  (∀ held t, pos = Some held → last trades = Some t →
     if in_position held then
       trade_price t = buy_price held ∧ bal = of_int 0
     else
       trade_action t = sell ∧
       bal = fmul (quantity held) (trade_price t) ∧
       trade_profit_loss t =
         Some (fmul (fsub (trade_price t) (buy_price held)) (quantity held))).
Proof.
  intros Hrun. apply trading_loop_state in Hrun; [|done].
  unfold ledger_matches in Hrun. destruct pos as [held|].
  - destruct Hrun as (t & Hlast & Hstate). split; [|split].
    + split; [done|]. intros ->. discriminate Hlast.
    + cbn. destruct (in_position held); cbn.
      * split; [|done]. intros _. exists t. by destruct Hstate.
      * split; [done|]. intros (t' & Hlast' & Hbuy).
        rewrite Hlast in Hlast'. injection Hlast' as <-.
        destruct Hstate as [Hsell _]. congruence.
    + intros held' t' [= <-] Hlast'. rewrite Hlast in Hlast'.
      injection Hlast' as <-.
      destruct (in_position held);
        [by destruct Hstate as (_ & ? & _ & ?)|by destruct Hstate as (? & ? & ?)].
  - subst trades. split; [done|]. split; [|done].
    cbn. split; [done|]. by intros (t & Hlast & _).
Qed.

Lemma from_rows_weaken data (lo lo' : nat) trades :
  lo ≤ lo' → from_rows data lo' trades → from_rows data lo trades.
Proof.
  intros Hlo. destruct trades as [|t rest]; [done|].
  intros (k & bar & Hk & Hrest). exists k, bar. split; [lia|done].
Qed.

Lemma py_index_column {A : Type} (f : Bar F → A) data (i : nat) (x : A) :
  py_index (f <$> data) (Z.of_nat i + 60) = Return x →
  ∃ bar, data !! (i + 60) = Some bar ∧ x = f bar.
Proof.
  replace (Z.of_nat i + 60)%Z with (Z.of_nat (i + 60)) by lia.
  rewrite py_index_Return_nat, list_lookup_fmap.
  destruct (data !! (i + 60)) as [bar|]; [|done].
  intros [= <-]. by exists bar.
Qed.

Lemma trading_loop_rows data y_pred (i : nat) bal pos trades bal' pos' trades' :
  trading_loop data y_pred i bal pos trades = Return (bal', pos', trades') →
  ∃ new, trades' = trades ++ new ∧ from_rows data (i + 60) new ∧
         length new ≤ length y_pred.
Proof.
  revert i bal pos trades.
  induction y_pred as [|p rest IH]; intros i bal pos trades; cbn.
  - intros [= <- <- <-]. exists []. by rewrite app_nil_r.
  - destruct (py_index (close <$> data) _) as [px|e] eqn:Hpx; cbn;
      [|intros Heq; discriminate Heq].
    apply py_index_column in Hpx as (bar & Hbar & ->).
    assert (∀ bal1 pos1,
      trading_loop data rest (S i) bal1 pos1 trades = Return (bal', pos', trades') →
      ∃ new, trades' = trades ++ new ∧ from_rows data (i + 60) new ∧
             length new ≤ S (length rest)) as Hskip.
    { intros bal1 pos1 (new & -> & Hrows & Hlen)%IH. exists new.
      split; [done|]. split; [|lia]. apply (from_rows_weaken _ _ (S i + 60)); [lia|done]. }
    assert (∀ ts bal1 pos1 t,
      py_index (timestamp <$> data) (Z.of_nat i + 60) = Return ts →
      trade_price t = close bar → trade_timestamp t = ts →
      trading_loop data rest (S i) bal1 pos1 (trades ++ [t])
        = Return (bal', pos', trades') →
      ∃ new, trades' = trades ++ new ∧ from_rows data (i + 60) new ∧
             length new ≤ S (length rest)) as Hrecord.
    { intros ts bal1 pos1 t (bar' & Hbar' & ->)%py_index_column Hprice Htime
        (new & -> & Hrows & Hlen)%IH.
      rewrite Hbar in Hbar'. injection Hbar' as <-.
      exists (t :: new). rewrite <-app_assoc. split; [done|]. split; [|cbn; lia].
      exists (i + 60), bar. by repeat split. }
    destruct (fgt (of_int p) _); destruct (is_flat pos) eqn:Hflat;
      [|by apply Hskip|by apply Hskip|].
    + destruct (py_index (timestamp <$> data) _) as [ts|e] eqn:Hts; cbn;
        [|intros Heq; discriminate Heq].
      by apply (Hrecord ts).
    + destruct pos as [held|]; [|discriminate Hflat].
      destruct (py_index (timestamp <$> data) _) as [ts|e] eqn:Hts; cbn;
        [|intros Heq; discriminate Heq].
      by apply (Hrecord ts).
Qed.

Lemma from_rows_lookup data (lo : nat) trades (j : nat) (t : Trade F) :
  from_rows data lo trades → trades !! j = Some t →
  ∃ k bar, lo + j ≤ k ∧ data !! k = Some bar ∧
           trade_price t = close bar ∧ trade_timestamp t = timestamp bar.
Proof.
  revert lo j. induction trades as [|t0 rest IH]; intros lo j Hrows Hj; [done|].
  destruct Hrows as (k & bar & Hk & Hbar & Hprice & Htime & Hrest).
  destruct j as [|j]; cbn in Hj.
  - injection Hj as <-. exists k, bar. repeat split; [lia|done..].
  - destruct (IH (S k) j Hrest Hj) as (k' & bar' & Hk' & Hrow').
    exists k', bar'. split; [lia|done].
Qed.

(** X9. Every record of a backtest ledger carries the close and the
    timestamp of one row of the table as given; record [j] comes from row
    60 + j or later, later records from later rows, and there is at most one
    record per predicted class. *)
Theorem simulate_trading_rows data y_pred bal pos trades :
  simulate_trading data y_pred = Return (bal, pos, trades) →
  from_rows data 60 trades ∧
  length trades ≤ length y_pred ∧
  (∀ (j : nat) (t : Trade F), trades !! j = Some t →
     ∃ k bar, 60 + j ≤ k < length data ∧ data !! k = Some bar ∧
              trade_price t = close bar ∧ trade_timestamp t = timestamp bar).
Proof.
  intros (new & -> & Hrows & Hlen)%trading_loop_rows. cbn in *.
  split; [done|]. split; [done|]. intros j t Hj.
  destruct (from_rows_lookup data 60 new j t Hrows Hj)
    as (k & bar & Hk & Hbar & Hprice & Htime).
  exists k, bar. split; [|done]. split; [done|]. by eapply lookup_lt_Some.
Qed.

End BacktestState.


(** ** Further runs in binary64 *)

Section MoreRuns.
#[local] Abbreviation float := PrimFloat.float.
#[local] Abbreviation table := (bars (F:=float)).

(** X1 on five rows given in reverse order. *)
Lemma preprocess_data_row_order_witness :
  preprocess_data (reverse (table zigzag_closes 5)) 2 =
  preprocess_data (table zigzag_closes 5) 2.
Proof.
  apply preprocess_data_row_order.
  - apply (bool_decide_unpack _). by vm_compute.
  - by rewrite reverse_Permutation.
Defined.

(** X2 on the zigzag table: the last window starts at row 2, whose close is
    the highest of the table. *)
Lemma predict_latest_window_witness :
  ∃ res,
    predict (F:=float) zigzag_agent "2024-01-01T00:00:00" (table zigzag_closes 63)
      = Return res ∧
    raw_prediction res = literal 1.
Proof.
  destruct (predict_latest_window (F:=float) zigzag_agent "2024-01-01T00:00:00"
              (table zigzag_closes 63) first_close_model eq_refl eq_refl
              zigzag_table_length) as (scaled & res & Hscaled & _ & Hres & Hraw & _).
  vm_compute in Hscaled. injection Hscaled as <-.
  exists res. split; [exact Hres|]. rewrite Hraw. by vm_compute.
Defined.

(** X7 on a table ending at a close of 160, from no position. *)
Lemma execute_strategy_keeps_position_valid_witness :
  ∃ ex,
    execute_strategy (F:=float) (fitted_agent 1 1) "2024-01-01T00:00:00"
      "2024-01-01T00:00:01" (table (closes_ending_at 160) 61) (literal 1000) None
      = Return ex ∧
    position_valid (position ex).
Proof.
  assert (∃ ex, execute_strategy (F:=float) (fitted_agent 1 1) "2024-01-01T00:00:00"
                  "2024-01-01T00:00:01" (table (closes_ending_at 160) 61)
                  (literal 1000) None = Return ex)
    as [ex Hex] by (eexists; by vm_compute).
  exists ex. split; [exact Hex|].
  refine (proj1 (execute_strategy_keeps_position_valid _ _ _ _ _ None ex _ Hex)).
  intros _. by split.
Defined.

(** X8 and X9 on the predicted classes 1, 0, 1 of the zigzag table. *)
Lemma simulate_trading_final_state_witness :
  ∃ bal pos trades,
    simulate_trading (table zigzag_closes 63) [1; 0; 1]%Z = Return (bal, pos, trades) ∧
    (pos = None ↔ trades = []) ∧
    (is_flat pos = false ↔ ∃ t, last trades = Some t ∧ trade_action t = buy).
Proof.
  assert (∃ run, simulate_trading (table zigzag_closes 63) [1; 0; 1]%Z = Return run)
    as [[[bal pos] trades] Hrun] by (eexists; by vm_compute).
  exists bal, pos, trades. split; [exact Hrun|].
  destruct (simulate_trading_final_state _ _ _ _ _ Hrun)
    as (Hnone & Hheld & _).
  by split.
Defined.

Lemma simulate_trading_rows_witness :
  ∃ bal pos trades,
    simulate_trading (table zigzag_closes 63) [1; 0; 1]%Z = Return (bal, pos, trades) ∧
    from_rows (table zigzag_closes 63) 60 trades ∧ length trades ≤ 3.
Proof.
  assert (∃ run, simulate_trading (table zigzag_closes 63) [1; 0; 1]%Z = Return run)
    as [[[bal pos] trades] Hrun] by (eexists; by vm_compute).
  exists bal, pos, trades. split; [exact Hrun|].
  destruct (simulate_trading_rows _ _ _ _ _ Hrun) as (Hrows & Hlen & _).
  by split.
Defined.

End MoreRuns.

(** ** What [evaluate] returns, and when it raises *)

Section EvaluateOutcomes.
Context {F : Type} {num : Number F} {f32 : Float32 F} {ext : Collaborators F}.
Implicit Types (data : DataFrame F) (self : AIAgent F).



(** X11. A completed [evaluate] changes nothing of the agent but its
    performance metrics, which it replaces as a whole by the dictionary it
    returns: nine keys, among them none of the keys set at construction or
    by training that it does not compute itself (['sharpe_ratio'] is gone),
    with [profit_loss_pct = profit_loss / 10000.0 * 100]. *)
Theorem evaluate_replaces_metrics self data self' (metrics : gmap string F) :
  evaluate self data = Return (self', metrics) →
  agent_id self' = agent_id self ∧ name self' = name self ∧
  strategy_type self' = strategy_type self ∧ risk_level self' = risk_level self ∧
  metadata self' = metadata self ∧ model self' = model self ∧
  trained self' = trained self ∧
  performance_metrics self' = metrics ∧
  dom metrics =
    ({["accuracy"; "precision"; "recall"; "f1_score"; "profit_loss";
       "profit_loss_pct"; "win_rate"; "num_trades"; "final_balance"]} : gset string) ∧
  metrics !! "sharpe_ratio" = None ∧
  (∃ pl, metrics !! "profit_loss" = Some pl ∧
         metrics !! "profit_loss_pct"
           = Some (fmul (fdiv pl (literal (10000#1))) (of_int 100))).
Proof.
  intros (y_true & y_pred & bal & pos & trades & bal' & _ & _ & -> & ->)%evaluate_Return_inv.
  split_and!; try done. by eexists.
Qed.

End EvaluateOutcomes.

(** ** Backtests of a model that never changes its mind *)

Section BacktestExtremes.
Context {F : Type} {num : Number F} {f32 : Float32 F} {ext : Collaborators F}.
Implicit Types (data : DataFrame F) (self : AIAgent F) (y_pred : list Z).

(** Steps whose signal the position does not allow change nothing. *)
Lemma trading_loop_idle data y_pred (i : nat) (bal : F) pos trades :
  Forall (λ c, fgt (of_int c) (literal (1#2)) = negb (is_flat pos)) y_pred →
  i + length y_pred + 60 ≤ length data →
  trading_loop data y_pred i bal pos trades = Return (bal, pos, trades).
Proof.
  revert i. induction y_pred as [|c rest IH]; intros i Hsig Hlen; [done|].
  apply Forall_cons in Hsig as [Hc Hrest]. cbn in *.
  destruct (py_index_in_range (close <$> data) (Z.of_nat i + 60)) as [px ->];
    [rewrite length_fmap; lia|].
  cbn. rewrite Hc. destruct (is_flat pos); cbn; apply IH; (done || lia).
Qed.

Lemma backtest_unfold self data (m : Model F) :
  trained self = true → model self = Some m → 60 < length data →
  ∃ y_true X,
    length X = length data - 60 ∧
    backtest self data =
      (run ← simulate_trading data
               (predicted_classes m (model_inputs (strategy_type self) X));
       Return (y_true, predicted_classes m (model_inputs (strategy_type self) X), run)).
Proof.
  intros Htrained Hmodel Hlen. unfold backtest. rewrite Htrained, Hmodel.
  destruct (preprocess_data_returns data 60) as (scaled & y & _ & _ & -> & _).
  { intros ->. cbn in Hlen. lia. }
  cbn. destruct (decide _) as [Hshort|_].
  { rewrite length_fmap, length_seq in Hshort. lia. }
  eexists y, _. split; [|done]. by rewrite length_fmap, length_seq.
Qed.

Lemma length_predicted_classes self (m : Model F) (X : list (Matrix F)) :
  length (predicted_classes m (model_inputs (strategy_type self) X)) = length X.
Proof.
  unfold predicted_classes, model_inputs.
  destruct (decide (strategy_type self = "lstm")); by rewrite !length_fmap.
Qed.

Lemma predicted_classes_constant self (m : Model F) (X : list (Matrix F)) (up : bool) :
  (∀ x, sgt (m x) (weak (literal (1#2))) = up) →
  Forall (λ c, c = if up then 1%Z else 0%Z)
         (predicted_classes m (model_inputs (strategy_type self) X)).
Proof.
  intros Hm. unfold predicted_classes. apply Forall_fmap, Forall_forall.
  intros x _. cbn. by rewrite Hm.
Qed.

(** X12. A model that never answers above 0.5 never trades: the ledger is
    empty, no position is ever opened, and [evaluate] reports the initial
    10000.0 as final balance with [num_trades] and [win_rate] 0. *)
Theorem evaluate_never_buys self data (m : Model F) :
  trained self = true → model self = Some m → 60 < length data →
  (∀ x, sgt (m x) (weak (literal (1#2))) = false) →
  fgt (of_int 0) (literal (1#2)) = false →
  ∃ y_true y_pred self' metrics,
    backtest self data = Return (y_true, y_pred, (literal (10000#1), None, [])) ∧
    evaluate self data = Return (self', metrics) ∧
    metrics !! "final_balance" = Some (literal (10000#1)) ∧
    metrics !! "profit_loss" = Some (fsub (literal (10000#1)) (literal (10000#1))) ∧
    metrics !! "num_trades" = Some (of_int 0) ∧
    metrics !! "win_rate" = Some (of_int 0).
Proof.
  intros Htrained Hmodel Hlen Hdown Hzero.
  destruct (backtest_unfold self data m Htrained Hmodel Hlen)
    as (y_true & X & HX & Hrun).
  set (y_pred := predicted_classes m _) in Hrun.
  assert (simulate_trading data y_pred = Return (literal (10000#1), None, []))
    as Hsim.
  { apply trading_loop_idle.
    - eapply Forall_impl; [apply (predicted_classes_constant self m X false Hdown)|].
      by intros c ->.
    - subst y_pred. rewrite length_predicted_classes. lia. }
  rewrite Hsim in Hrun. cbn in Hrun.
  destruct (evaluate_Return self data _ _ _ _ _ _ Hrun eq_refl) as (self' & Hev & _).
  exists y_true, y_pred, self', (metrics_dict y_true y_pred (literal (10000#1)) []).
  by split_and!.
Qed.

(** X13. A model that always answers above 0.5 buys once and holds: the
    ledger is the single buy at the close of row 60 with all of the 10000.0,
    and [evaluate] reports as final balance that quantity valued at the
    close of the last row, with [num_trades] and [win_rate] 0. *)
Theorem evaluate_buy_and_hold self data (m : Model F) :
  trained self = true → model self = Some m → 60 < length data →
  (∀ x, sgt (m x) (weak (literal (1#2))) = true) →
  fgt (of_int 1) (literal (1#2)) = true →
  ∃ entry final y_true y_pred self' metrics,
    data !! 60 = Some entry ∧ last data = Some final ∧
    backtest self data =
      Return (y_true, y_pred,
              (of_int 0,
               Some {| in_position := true; buy_price := close entry;
                       quantity := fdiv (literal (10000#1)) (close entry) |},
               [{| trade_action := buy; trade_price := close entry;
                   trade_timestamp := timestamp entry;
                   trade_profit_loss := None |}])) ∧
    evaluate self data = Return (self', metrics) ∧
    metrics !! "final_balance"
      = Some (fmul (fdiv (literal (10000#1)) (close entry)) (close final)) ∧
    metrics !! "num_trades" = Some (of_int 0) ∧
    metrics !! "win_rate" = Some (of_int 0).
Proof.
  intros Htrained Hmodel Hlen Hup Hone.
  destruct (backtest_unfold self data m Htrained Hmodel Hlen)
    as (y_true & X & HX & Hrun).
  pose proof (predicted_classes_constant self m X true Hup) as Hones.
  pose proof (length_predicted_classes self m X) as Hlen_pred.
  set (y_pred := predicted_classes m _) in *.
  destruct (lookup_lt_is_Some_2 data 60) as [entry Hentry]; [lia|].
  destruct (last data) as [final|] eqn:Hfinal;
    [|apply last_None in Hfinal; subst data; cbn in Hlen; lia].
  destruct y_pred as [|c rest] eqn:Hy; [cbn in Hlen_pred; lia|].
  apply Forall_cons in Hones as [-> Hones].
  assert (simulate_trading data (1%Z :: rest) =
          Return (of_int 0,
                  Some {| in_position := true; buy_price := close entry;
                          quantity := fdiv (literal (10000#1)) (close entry) |},
                  [{| trade_action := buy; trade_price := close entry;
                      trade_timestamp := timestamp entry;
                      trade_profit_loss := None |}])) as Hsim.
  { unfold simulate_trading. cbn [trading_loop].
    change (Z.of_nat 0 + 60)%Z with (Z.of_nat 60).
    rewrite !py_index_nat, !list_lookup_fmap, Hentry, Hone. cbn.
    apply trading_loop_idle.
    - eapply Forall_impl; [exact Hones|]. by intros c ->.
    - cbn in Hlen_pred. lia. }
  rewrite Hsim in Hrun. cbn in Hrun.
  assert (final_balance data (of_int 0)
            (Some {| in_position := true; buy_price := close entry;
                     quantity := fdiv (literal (10000#1)) (close entry) |})
          = Return (fmul (fdiv (literal (10000#1)) (close entry)) (close final)))
    as Hbal.
  { unfold final_balance. cbn.
    by rewrite (proj2 (py_index_last (close <$> data) (close final)))
      by (by rewrite fmap_last, Hfinal). }
  destruct (evaluate_Return self data _ _ _ _ _ _ Hrun Hbal) as (self' & Hev & _).
  exists entry, final, y_true, (1%Z :: rest), self'. eexists.
  by split_and!.
Qed.

End BacktestExtremes.

(** ** Construction and persistence of agents *)

Section Persistence.
Context {F : Type} {num : Number F} {f32 : Float32 F} {ext : Collaborators F}.
Implicit Types (self : AIAgent F) (disk : Disk F) (id : string).

Lemma pretty_N_go_nonempty (x : N) (s : string) : s ≠ "" → pretty_N_go x s ≠ "".
Proof.
  revert s. induction (N.lt_wf_0 x) as [x _ IH]; intros s Hs.
  destruct (decide (x = 0)%N) as [->|Hx]; [by rewrite pretty_N_go_0|].
  rewrite pretty_N_go_step by lia. apply IH; [|done].
  apply N.div_lt; lia.
Qed.

Lemma pretty_Z_nonempty (z : Z) : pretty z ≠ "".
Proof.
  destruct z as [|p|p]; [done| |done].
  unfold pretty, pretty_Z, pretty, pretty_positive, pretty, pretty_N.
  destruct (decide (N.pos p = 0)%N); [done|].
  rewrite pretty_N_go_step by lia. by apply pretty_N_go_nonempty.
Qed.

(** X14. Every agent the constructor builds has a non-empty id (the given
    one, or the decimal clock reading when none or an empty one is given),
    is untrained, has no model, and starts with the four metrics accuracy,
    profit_loss, win_rate and sharpe_ratio at 0; so do the agents of
    [AgentFactory.create_agent]. *)
Theorem init_agent (clock : Z) (given : option string) (nm strategy : string)
    (risk : F) (meta : option (gmap string (Json F))) :
  agent_id (init clock given nm strategy risk meta) ≠ "" ∧
  (∀ id, given = Some id → id ≠ "" →
         agent_id (init clock given nm strategy risk meta) = id) ∧
  (given = None ∨ given = Some "" →
   agent_id (init clock given nm strategy risk meta) = pretty clock) ∧
  trained (init clock given nm strategy risk meta) = false ∧
  model (init clock given nm strategy risk meta) = None ∧
  dom (performance_metrics (init clock given nm strategy risk meta)) =
    ({["accuracy"; "profit_loss"; "win_rate"; "sharpe_ratio"]} : gset string) ∧
  (∀ key x, performance_metrics (init clock given nm strategy risk meta) !! key
              = Some x → x = of_int 0) ∧
  AgentFactory.create_agent clock nm strategy risk meta
    = init clock None nm strategy risk meta.
Proof.
  split_and!; try done.
  - unfold init. cbn. destruct given as [id|]; [|apply pretty_Z_nonempty].
    destruct (decide (id = "")); [apply pretty_Z_nonempty|done].
  - intros id -> Hid. unfold init. cbn. by destruct (decide (id = "")).
  - by intros [->| ->].
  - intros key x. unfold init. cbn.
    rewrite !lookup_insert_Some, lookup_empty.
    intros [[_ <-]|[_ [[_ <-]|[_ [[_ <-]|[_ [[_ <-]|[_ Hnone]]]]]]]];
      [done..|discriminate Hnone].
Qed.

Lemma load_agent_saved (clock : Z) (now : string) self disk (m : Model F) :
  model self = Some m → agent_id self ≠ "" →
  AgentFactory.load_agent clock (save_model self now disk).2 (agent_id self)
    = Some self.
Proof.
  intros Hmodel Hid. unfold save_model. rewrite Hmodel.
  unfold AgentFactory.load_agent, init, load_model. cbn.
  destruct (decide (agent_id self = "")); [done|].
  unfold model_path, metadata_path, model_dir. cbn.
  rewrite !lookup_insert_eq. cbn. destruct self. cbn in *. by subst.
Qed.

(** X15. Saving and loading round-trip: an agent with a model and a
    non-empty id that is saved and then loaded by its id comes back with
    every field as it was, whatever was on disk before. *)
Theorem load_agent_after_save_model (clock : Z) (now : string) self disk
    (m : Model F) :
  model self = Some m → agent_id self ≠ "" →
  save_model self now disk = (true, (save_model self now disk).2) ∧
  AgentFactory.load_agent clock (save_model self now disk).2 (agent_id self)
    = Some self.
Proof.
  intros Hmodel Hid. split; [|by apply (load_agent_saved clock now self disk m)].
  unfold save_model. by rewrite Hmodel.
Qed.

End Persistence.

(** ** Training, and what the scripts see of it *)

Section Training.
Context {F : Type} {num : Number F} {f32 : Float32 F} {ext : Collaborators F}.
Implicit Types (self a : AIAgent F) (disk : Disk F) (data : DataFrame F).
Implicit Types (keras : Keras F) (hist : list F).

(** The agent as [train] saves it: fitted, not yet marked. *)
Definition with_model self (m : Model F) : AIAgent F :=
  {| agent_id := agent_id self; name := name self;
     strategy_type := strategy_type self; risk_level := risk_level self;
     metadata := metadata self; model := Some m; trained := trained self;
     performance_metrics := performance_metrics self |}.

(** [train] up to the call of [model.fit], on more than 60 rows. *)
Lemma train_unfold keras self now disk data :
  60 < length data →
  ∃ X y,
    length X = length data - 60 ∧
    train keras self now disk data =
      ('(m, val_accuracy) ←
         fit keras (default (build_model keras (strategy_type self)) (model self))
           (model_inputs (strategy_type self) X) y;
       acc ← py_index val_accuracy (-1);
       Return ({| agent_id := agent_id self; name := name self;
                  strategy_type := strategy_type self;
                  risk_level := risk_level self;
                  metadata := metadata self; model := Some m; trained := true;
                  performance_metrics :=
                    <["accuracy" := acc]> (performance_metrics self) |},
               (save_model (with_model self m) now disk).2, val_accuracy)).
Proof.
  intros Hlen. unfold train.
  destruct (preprocess_data_returns data 60) as (scaled & y & _ & _ & -> & _).
  { intros ->. cbn in Hlen. lia. }
  cbn. destruct (decide _) as [Hshort|_].
  { rewrite length_fmap, length_seq in Hshort. lia. }
  exists ((λ i, take 60 (drop i scaled)) <$> seq 0 (length data - 60)), y.
  split; [by rewrite length_fmap, length_seq|].
  destruct (fit keras _ _ _) as [[m val]|e]; cbn; [|done].
  by destruct (py_index val (-1)).
Qed.

Lemma train_cases keras self now disk data :
  (length data = 0 → train keras self now disk data = Raise no_samples) ∧
  (0 < length data ≤ 60 →
   train keras self now disk data = Raise not_enough_for_training).
Proof.
  unfold train. split.
  - intros Hlen. destruct data; [|done]. by rewrite preprocess_data_empty.
  - intros Hlen.
    destruct (preprocess_data_returns data 60) as (scaled & y & _ & _ & -> & _).
    { intros ->. cbn in Hlen. lia. }
    cbn. rewrite length_fmap, length_seq.
    destruct (decide (length data - 60 = 0)); [done|lia].
Qed.

Lemma train_Return_inv keras self now disk data a disk' hist :
  train keras self now disk data = Return (a, disk', hist) →
  60 < length data ∧
  ∃ (m : Model F) (acc : F),
    last hist = Some acc ∧
    a = {| agent_id := agent_id self; name := name self;
           strategy_type := strategy_type self; risk_level := risk_level self;
           metadata := metadata self; model := Some m; trained := true;
           performance_metrics := <["accuracy" := acc]> (performance_metrics self) |} ∧
    disk' = (save_model (with_model self m) now disk).2.
Proof.
  destruct (train_cases keras self now disk data) as [Hnone Hshort].
  destruct (decide (length data = 0)) as [H0|H0];
    [rewrite Hnone by done; intros Heq; discriminate Heq|].
  destruct (decide (length data ≤ 60)) as [H60|H60];
    [rewrite Hshort by lia; intros Heq; discriminate Heq|].
  destruct (train_unfold keras self now disk data) as (X & y & _ & ->); [lia|].
  destruct (fit keras _ _ _) as [[m val]|e]; cbn; [|intros Heq; discriminate Heq].
  destruct (py_index val (-1)) as [acc|e] eqn:Hacc; cbn;
    [|intros Heq; discriminate Heq].
  intros [= <- <- <-]. split; [lia|]. exists m, acc.
  by split; [apply py_index_last|].
Qed.

(** [train] returns on more than 60 rows whenever the fit of that many
    windows returns a history with an entry. *)
Lemma train_returns keras self now disk data :
  60 < length data →
  (∀ m0 X y, length X = length data - 60 →
     ∃ m hist, fit keras m0 X y = Return (m, hist) ∧ hist ≠ []) →
  ∃ a disk' hist, train keras self now disk data = Return (a, disk', hist).
Proof.
  intros Hlen Hfit.
  destruct (train_unfold keras self now disk data Hlen) as (X & y & HX & ->).
  destruct (Hfit (default (build_model keras (strategy_type self)) (model self))
              (model_inputs (strategy_type self) X) y)
    as (m & hist & -> & Hhist).
  { unfold model_inputs.
    destruct (decide (strategy_type self = "lstm")); by rewrite length_fmap. }
  cbn. destruct (py_index_in_range hist (-1)) as [acc ->]; [|by eexists _, _, _].
  destruct hist; [done|cbn; lia].
Qed.



(** X19. Reloading after training: [AgentFactory.load_agent] on the disk a
    completed [train] leaves gives the agent as it was before the run, with
    the new model. After the first training of an agent the reloaded agent
    is therefore untrained, and the prediction and execution scripts refuse
    it as not trained. *)
Theorem load_agent_after_train keras self now disk data a disk' hist (clock : Z) :
  train keras self now disk data = Return (a, disk', hist) →
  agent_id self ≠ "" →
  (∃ m, model a = Some m ∧
        AgentFactory.load_agent clock disk' (agent_id self) = Some (with_model self m)) ∧
  (trained self = false →
   ∀ now' finished answered data' bal pos,
     Scripts.make_prediction clock now' answered disk' (agent_id self) data'
       = Failure ("Agent with ID " +:+ agent_id self +:+ " is not trained") ∧
     Scripts.execute_strategy clock now' finished answered disk' (agent_id self)
       data' bal pos
       = Failure ("Agent with ID " +:+ agent_id self +:+ " is not trained")).
Proof.
  intros (_ & m & acc & _ & -> & ->)%train_Return_inv Hid.
  pose proof (load_agent_saved clock now (with_model self m) disk m eq_refl Hid)
    as Hload.
  change (agent_id (with_model self m)) with (agent_id self) in Hload.
  split; [by exists m|].
  intros Huntrained now' finished answered data' bal pos.
  unfold Scripts.make_prediction, Scripts.execute_strategy.
  rewrite Hload. cbn. by rewrite Huntrained.
Qed.

End Training.

(** ** The scripts and the factory *)

Section ScriptProperties.
Context {F : Type} {num : Number F} {f32 : Float32 F} {ext : Collaborators F}.
Implicit Types (self : AIAgent F) (disk : Disk F) (id : string).
Implicit Types (data : DataFrame F).

(** What [load_agent] returns for a non-empty id. *)
Lemma load_agent_cases (clock : Z) disk id :
  id ≠ "" →
  AgentFactory.load_agent clock disk id =
    match model_file disk !! model_path disk id with
    | None => None
    | Some m =>
        Some (load_model (init clock (Some id) "Default Agent" "lstm"
                            (literal (1#2)) None) None disk).2
    end.
Proof.
  intros Hid. unfold AgentFactory.load_agent, load_model, init. cbn.
  destruct (decide (id = "")); [done|].
  destruct (model_file disk !! model_path disk id) as [m|]; [|done].
  by destruct (metadata_file disk !! metadata_path disk id).
Qed.

Lemma scripts_not_found (clock : Z) disk id :
  id ≠ "" → model_file disk !! model_path disk id = None →
  ∀ now finished answered data bal pos,
    Scripts.make_prediction clock now answered disk id data
      = Failure ("Agent with ID " +:+ id +:+ " not found") ∧
    Scripts.execute_strategy clock now finished answered disk id data bal pos
      = Failure ("Agent with ID " +:+ id +:+ " not found").
Proof.
  intros Hid Hnone now finished answered data bal pos.
  unfold Scripts.make_prediction, Scripts.execute_strategy.
  by rewrite load_agent_cases, Hnone by done.
Qed.

(** X20. An agent can be loaded exactly when its model directory holds a
    model file; without one, [load_agent] returns [None] and the prediction
    and execution scripts answer that the agent was not found, whatever the
    market data. *)
Theorem scripts_agent_not_found (clock : Z) disk id :
  id ≠ "" →
  (AgentFactory.load_agent clock disk id = None
   ↔ model_file disk !! model_path disk id = None) ∧
  (model_file disk !! model_path disk id = None →
   ∀ now finished answered data bal pos,
     Scripts.make_prediction clock now answered disk id data
       = Failure ("Agent with ID " +:+ id +:+ " not found") ∧
     Scripts.execute_strategy clock now finished answered disk id data bal pos
       = Failure ("Agent with ID " +:+ id +:+ " not found")).
Proof.
  intros Hid. rewrite load_agent_cases by done. split.
  - by destruct (model_file disk !! model_path disk id).
  - by apply scripts_not_found.
Qed.

(** X21. The create script writes nothing: a new agent has no model, so
    [save_model] leaves the disk as it was, and the response carries the
    clock reading as id and the four zero metrics. An agent just created
    whose directory held no model before is not found by the other
    scripts. *)
Theorem create_agent_is_not_saved (digest : AgentDict F → string) (clock : Z)
    (saved_at created_at : string) disk (nm strategy : string) (risk : F)
    (meta : option (gmap string (Json F))) :
  ∃ resp,
    Scripts.create_agent digest clock saved_at created_at disk nm strategy risk meta
      = (Success resp, disk) ∧
    Scripts.cr_agent_id resp = pretty clock ∧
    Scripts.cr_name resp = nm ∧
    Scripts.cr_risk_level resp = risk ∧
    (model_file disk !! model_path disk (pretty clock) = None →
     ∀ clock' now answered data,
       Scripts.make_prediction clock' now answered disk (Scripts.cr_agent_id resp) data
         = Failure ("Agent with ID " +:+ pretty clock +:+ " not found")).
Proof.
  eexists. split; [reflexivity|]. cbn. split_and!; try done.
  intros Hnone clock' now answered data.
  by destruct (scripts_not_found clock' disk (pretty clock)
                 (pretty_Z_nonempty clock) Hnone now now answered data (of_int 0) None).
Qed.


(** X23. Deserializing and serializing again gives the record back: for a
    complete record (every key present, no [created_at]) with a non-empty
    id that is marked untrained, or whose model directory holds no model,
    [to_dict (from_dict d) = d]. *)
Theorem to_dict_from_dict (clock : Z) disk (id nm strategy : string) (risk : F)
    (flag : bool) (metrics : gmap string F) (meta : gmap string (Json F)) :
  id ≠ "" →
  flag = false ∨ model_file disk !! model_path disk id = None →
  to_dict (from_dict clock disk
             {| d_agent_id := Some id; d_name := Some nm;
                d_strategy_type := Some strategy; d_risk_level := Some risk;
                d_trained := Some flag; d_performance_metrics := Some metrics;
                d_created_at := None; d_metadata := Some meta |})
  = {| d_agent_id := Some id; d_name := Some nm;
       d_strategy_type := Some strategy; d_risk_level := Some risk;
       d_trained := Some flag; d_performance_metrics := Some metrics;
       d_created_at := None; d_metadata := Some meta |}.
Proof.
  intros Hid Hcase. unfold from_dict, init, load_model. cbn.
  destruct (decide (id = "")); [done|].
  destruct flag; [|done]. destruct Hcase as [Hflag|Hfile]; [done|].
  cbn. destruct (decide (id = "")); [done|]. by rewrite Hfile.
Qed.

End ScriptProperties.

(** ** Runs of [evaluate], [train] and the scripts in binary64 *)

Section PersistenceRuns.
#[local] Abbreviation float := PrimFloat.float.
#[local] Abbreviation table := (bars (F:=float)).

Lemma rising_table_length : 60 < length (table (closes_ending_at 160) 63).
Proof. rewrite length_bars. lia. Defined.

Lemma training_table_length : 60 < length (table (closes_ending_at 160) 71).
Proof. rewrite length_bars. lia. Defined.

(** The stub fits the 11 windows of a table of 71 rows. *)
Lemma stub_keras_fits (m0 : Model float) (X : list (ModelInput float)) (y : list Z) :
  length X = length (table (closes_ending_at 160) 71) - 60 →
  ∃ m hist, fit stub_keras m0 X y = Return (m, hist) ∧ hist ≠ [].
Proof.
  rewrite length_bars. intros HX. unfold stub_keras. cbn.
  destruct (decide (length X ≤ 1)); [lia|]. by eexists _, _.
Defined.

(** X11 on the zigzag table. *)
Lemma evaluate_replaces_metrics_witness :
  ∃ self' metrics,
    evaluate (F:=float) zigzag_agent (table zigzag_closes 63) = Return (self', metrics) ∧
    performance_metrics self' = metrics ∧
    metrics !! "sharpe_ratio" = None ∧
    model self' = Some first_close_model.
Proof.
  destruct (evaluate_returns (F:=float) zigzag_agent (table zigzag_closes 63)
              first_close_model eq_refl eq_refl zigzag_table_length)
    as (y_true & y_pred & bal & pos & trades & bal' & self' & _ & _ & _ & Hev & _).
  exists self', (metrics_dict y_true y_pred bal' trades). split; [exact Hev|].
  destruct (evaluate_replaces_metrics _ _ _ _ Hev)
    as (_ & _ & _ & _ & _ & Hmodel & _ & Hpm & _ & Hsharpe & _).
  by split_and!.
Defined.

(** X12: a model that always answers 0.25. *)
Lemma evaluate_never_buys_witness :
  ∃ self' metrics,
    evaluate (F:=float) (fitted_agent (1#2) (1#4)) (table (closes_ending_at 160) 63)
      = Return (self', metrics) ∧
    metrics !! "final_balance" = Some (literal 10000) ∧
    metrics !! "num_trades" = Some (of_int 0).
Proof.
  destruct (evaluate_never_buys (F:=float) (fitted_agent (1#2) (1#4))
              (table (closes_ending_at 160) 63) (constant_model (1#4))
              eq_refl eq_refl rising_table_length)
    as (y_true & y_pred & self' & metrics & _ & Hev & Hbal & _ & Hnum & _);
    [intros x; by vm_compute|by vm_compute|].
  by exists self', metrics.
Defined.

(** X13: a model that always answers 1.0 buys at the close 160 of row 60
    and is valued at the close 162 of the last row. *)
Lemma evaluate_buy_and_hold_witness :
  ∃ self' metrics,
    evaluate (F:=float) (fitted_agent (1#2) 1) (table (closes_ending_at 160) 63)
      = Return (self', metrics) ∧
    metrics !! "final_balance" = Some (literal 10125).
Proof.
  destruct (evaluate_buy_and_hold (F:=float) (fitted_agent (1#2) 1)
              (table (closes_ending_at 160) 63) (constant_model 1)
              eq_refl eq_refl rising_table_length)
    as (entry & final & y_true & y_pred & self' & metrics
        & Hentry & Hfinal & _ & Hev & Hbal & _);
    [intros x; by vm_compute|by vm_compute|].
  vm_compute in Hentry. injection Hentry as <-.
  vm_compute in Hfinal. injection Hfinal as <-.
  exists self', metrics. split; [exact Hev|]. rewrite Hbal. by vm_compute.
Defined.

(** X15: the zigzag agent saved to an empty disk and loaded again. *)
Lemma load_agent_after_save_model_witness :
  AgentFactory.load_agent 1700000100
    (save_model (zigzag_agent (F:=float)) "2024-01-01T00:00:00" empty_disk).2 "agent-2"
  = Some zigzag_agent.
Proof.
  refine (proj2 (load_agent_after_save_model (F:=float) 1700000100
                   "2024-01-01T00:00:00" zigzag_agent empty_disk first_close_model
                   eq_refl _)).
  intros Hid. discriminate Hid.
Defined.


Lemma load_agent_after_train_witness :
  ∃ a disk hist,
    train stub_keras (fresh_agent (F:=float)) "2024-01-01T00:00:00" empty_disk
      (table (closes_ending_at 160) 71) = Return (a, disk, hist) ∧
    Scripts.make_prediction 1700000100 "2024-01-02T00:00:00" "2024-01-02T00:00:01"
      disk "1700000000" (table (closes_ending_at 160) 71)
    = Failure "Agent with ID 1700000000 is not trained".
Proof.
  destruct (train_returns (ext:=libraries) stub_keras (fresh_agent (F:=float))
              "2024-01-01T00:00:00" empty_disk (table (closes_ending_at 160) 71)
              training_table_length stub_keras_fits)
    as (a & disk & hist & Hrun).
  exists a, disk, hist. split; [exact Hrun|].
  destruct (load_agent_after_train (ext:=libraries) _ _ _ _ _ _ _ _ 1700000100 Hrun)
    as [_ Hscripts]; [by vm_compute|].
  exact (proj1 (Hscripts eq_refl "2024-01-02T00:00:00" "2024-01-02T00:00:00"
                  "2024-01-02T00:00:01"
                  (table (closes_ending_at 160) 71) (literal 1000) None)).
Defined.

(** X20: an id that was never saved. *)
Lemma scripts_agent_not_found_witness :
  Scripts.make_prediction (F:=float) 1700000100 "2024-01-02T00:00:00"
    "2024-01-02T00:00:01" empty_disk "agent-9" (table zigzag_closes 63)
  = Failure "Agent with ID agent-9 not found".
Proof.
  assert ("agent-9" ≠ "") as Hid by (intros Hid; discriminate Hid).
  destruct (scripts_agent_not_found (F:=float) 1700000100 empty_disk "agent-9" Hid)
    as [_ Hmissing].
  exact (proj1 (Hmissing eq_refl "2024-01-02T00:00:00" "2024-01-02T00:00:00"
                  "2024-01-02T00:00:01"
                  (table zigzag_closes 63) (literal 1000) None)).
Defined.

(** X23: a complete record of an untrained agent. *)
Lemma to_dict_from_dict_witness :
  to_dict (from_dict (F:=float) 1700000100 empty_disk
             {| d_agent_id := Some "agent-3"; d_name := Some "Momentum";
                d_strategy_type := Some "dnn"; d_risk_level := Some (literal (3#10));
                d_trained := Some false;
                d_performance_metrics := Some {["accuracy" := literal (3#4)]};
                d_created_at := None; d_metadata := Some ∅ |})
  = {| d_agent_id := Some "agent-3"; d_name := Some "Momentum";
       d_strategy_type := Some "dnn"; d_risk_level := Some (literal (3#10));
       d_trained := Some false;
       d_performance_metrics := Some {["accuracy" := literal (3#4)]};
       d_created_at := None; d_metadata := Some ∅ |}.
Proof.
  apply (to_dict_from_dict (F:=float) 1700000100 empty_disk "agent-3");
    [intros Hid; discriminate Hid|by left].
Defined.

End PersistenceRuns.
